(** * A bug tracker (MERN): shallow embedding and verification

    The development follows the repository layout:

    - [Js]            : the fragment of JavaScript values the components rely on
                        (UTF-16 strings, [String.prototype.trim], truthiness,
                        optional chaining, [||]);
    - [BugListView]   : [frontend/components/BugList.jsx];
    - [ErrorBoundary] : [frontend/components/ErrorBoundary.jsx];
    - [BugForm]       : [frontend/components/BugForm.jsx];
    - [App]           : [frontend/src/App.jsx], the four asynchronous handlers;
    - [Model]         : [backend/models/Bug.js], the Mongoose schema;
    - [Controller]    : [backend/controllers/bugController.js].

    Definitions come first, the theorems about them afterwards. *)

From Stdlib Require Import List NArith ZArith Bool String Ascii Lia.
From Stdlib Require Import Sorting.Sorted Sorting.Permutation.
Import ListNotations.

Set Implicit Arguments.
Set Warnings "-register-all".

(* ===================================================================== *)
(** ** JavaScript values                                                  *)
(* ===================================================================== *)

Module Js.

(** A JavaScript string is a sequence of UTF-16 code units. *)
Definition jsstring := list N.

(** String literals of the sources are all ASCII. *)
Definition lit (s : string) : jsstring :=
  map N_of_ascii (list_ascii_of_string s).

(** The empty string, [''] in the sources. *)
Definition empty : jsstring := [].

Definition code_eqb : N -> N -> bool := N.eqb.

Fixpoint str_eqb (a b : jsstring) : bool :=
  match a, b with
  | [], [] => true
  | x :: a', y :: b' => code_eqb x y && str_eqb a' b'
  | _, _ => false
  end.

(** ECMAScript [WhiteSpace] and [LineTerminator] code points, the set
    stripped by [String.prototype.trim]. *)
Definition is_white_space (c : N) : bool :=
  (  (c =? 9) || (c =? 10) || (c =? 11) || (c =? 12) || (c =? 13)
  || (c =? 32) || (c =? 160) || (c =? 5760)
  || ((8192 <=? c) && (c <=? 8202))
  || (c =? 8232) || (c =? 8233) || (c =? 8239) || (c =? 8287)
  || (c =? 12288) || (c =? 65279))%N.

Fixpoint trimStart (s : jsstring) : jsstring :=
  match s with
  | [] => []
  | c :: s' => if is_white_space c then trimStart s' else s
  end.

Definition trimEnd (s : jsstring) : jsstring :=
  rev (trimStart (rev s)).

(** [s.trim()] *)
Definition trim (s : jsstring) : jsstring := trimEnd (trimStart s).

(** Values.  Numbers are restricted to the integral ones, which is all
    that truthiness needs here ([NaN] is not represented). *)
Inductive value : Type :=
| VUndefined
| VNull
| VBool (b : bool)
| VNumber (n : Z)
| VString (s : jsstring)
| VObject (fields : list (jsstring * value)).

(** [new Error(msg)] : an object whose [message] is [msg]. *)
Definition Error (msg : jsstring) : value :=
  VObject [(lit "message", VString msg)].

(** [ToBoolean] *)
Definition truthy (v : value) : bool :=
  match v with
  | VUndefined | VNull => false
  | VBool b => b
  | VNumber n => negb (n =? 0)%Z
  | VString s => match s with [] => false | _ => true end
  | VObject _ => true
  end.

Fixpoint lookup (k : jsstring) (fields : list (jsstring * value)) : value :=
  match fields with
  | [] => VUndefined
  | (k', v) :: rest => if str_eqb k k' then v else lookup k rest
  end.

(** [v?.k] for a key [k] that no primitive wrapper prototype defines
    (such as [message], [response], [data]): [undefined] on [null] and
    [undefined] by short-circuit, [undefined] on primitives because the
    property is missing, the field on objects. *)
Definition opt_get (v : value) (k : jsstring) : value :=
  match v with
  | VObject fields => lookup k fields
  | _ => VUndefined
  end.

(** [a || b] *)
Definition or_else (a b : value) : value :=
  if truthy a then a else b.

End Js.

Import Js.

(* ===================================================================== *)
(** ** The record as the front end sees it                                *)
(* ===================================================================== *)

Record Bug : Type := mkBug {
  _id : jsstring;
  title : jsstring;
  description : jsstring;
  status : jsstring;
  createdAt : Z;
  updatedAt : Z
}.

(* ===================================================================== *)
(** ** BugList.jsx                                                        *)
(* ===================================================================== *)

Module BugListView.

Record Props : Type := mkProps {
  bugs : list Bug;
  loading : bool;
  error : value
}.

(** What one [<BugItem key=... bug=... />] element carries; the two
    handlers are passed through unchanged. *)
Record ItemElement : Type := mkItem { key : jsstring; bug : Bug }.

Inductive View : Type :=
| LoadingView                       (* "Loading bugs..." *)
| ErrorView (message : value)       (* role="alert" *)
| EmptyView                         (* "No bugs reported yet." *)
| ListView (items : list ItemElement).

Definition BugList (p : Props) : View :=
  if loading p then LoadingView
  else if truthy (error p) then ErrorView (error p)
  else if (List.length (bugs p) =? 0)%nat then EmptyView
  else ListView (map (fun b => mkItem (_id b) b) (bugs p)).

End BugListView.

(* ===================================================================== *)
(** ** ErrorBoundary.jsx                                                  *)
(* ===================================================================== *)

Module ErrorBoundary.

(** [this.state] *)
Record State : Type := mkState { hasError : bool; error : value }.

(** One report reaching an error reporting service or the console: the
    failure and the component stack. *)
Record Report : Type := mkReport { reported : value; context : value }.

(** A mounted boundary: its state and what has been reported about it so
    far, by the class or by React on its behalf. *)
Record Instance : Type := mkInstance { state : State; sink : list Report }.

(** Completion of a method body: it returns or it throws. *)
Inductive Completion (A : Type) : Type :=
| Normal (a : A)
| Abrupt (thrown : value).
Arguments Normal {A} a.
Arguments Abrupt {A} thrown.

(** Methods run against the instance. *)
Definition Method (A : Type) : Type := Instance -> Completion A * Instance.

Definition ret {A} (a : A) : Method A := fun i => (Normal a, i).

Definition bind {A B} (m : Method A) (f : A -> Method B) : Method B :=
  fun i =>
    match m i with
    | (Normal a, i') => f a i'
    | (Abrupt e, i') => (Abrupt e, i')
    end.

Definition setState (s : State) : Method unit :=
  fun i => (Normal tt, mkInstance s (sink i)).

(** [console.error(error, componentStack)]: how React reports an error
    that a boundary has caught. *)
Definition console_error (r : Report) : Method unit :=
  fun i => (Normal tt, mkInstance (state i) (sink i ++ [r])).

(** [constructor]: [this.state = { hasError: false, error: null }] *)
Definition constructor : Instance := mkInstance (mkState false VNull) [].

(** [static getDerivedStateFromError(error)] *)
Definition getDerivedStateFromError (error : value) : State :=
  mkState true error.

(** [componentDidCatch(error, errorInfo)]: the body holds a comment only. *)
Definition componentDidCatch (error errorInfo : value) : Method unit :=
  ret tt.

(** [handleReset] *)
Definition handleReset : Method unit :=
  setState (mkState false VNull).

(** The fallback element: [<h2>], [<p>] and the [<button>] whose
    [onClick] is [handleReset]. *)
Record Fallback : Type := mkFallback {
  heading : jsstring;
  message : value;
  button_label : jsstring;
  onClick : Method unit
}.

Section Render.

(** [C]: what [this.props.children] holds; [R]: what a subtree looks
    like once it is on screen. *)
Variables C R : Type.

Inductive Element : Type :=
| FallbackElement (f : Fallback)
| ChildrenElement (children : C).

(** [render()] *)
Definition render (s : State) (children : C) : Element :=
  if hasError s then
    FallbackElement
      (mkFallback
         (lit "Something went wrong.")
         (or_else (opt_get (error s) (lit "message"))
                  (VString (lit "An unexpected error occurred.")))
         (lit "Try Again")
         handleReset)
  else ChildrenElement children.

(** *** React's protocol around the class

    Rendering the children either paints them or throws a value
    together with the component stack. *)
Inductive Drawn : Type :=
| Painted (r : R)
| Thrown (e : value) (errorInfo : value).

Variable draw : C -> Drawn.

Inductive Screen : Type :=
| ShowChildren (r : R)
| ShowFallback (f : Fallback)
| Propagated (e : value).          (* the error leaves the boundary *)

(** The pass after a failure was captured: the boundary is not asked to
    capture a second failure of the same pass. *)
Definition retry (s : State) (children : C) : Screen :=
  match render s children with
  | FallbackElement f => ShowFallback f
  | ChildrenElement c =>
      match draw c with
      | Painted r => ShowChildren r
      | Thrown e _ => Propagated e
      end
  end.

(** One render pass of the boundary with the given children: on a
    throw React derives the new state and renders again; in the commit
    phase it reports the caught error with its component stack to the
    console and then calls [componentDidCatch]. *)
Definition pass (children : C) (i : Instance) : Instance * Screen :=
  match render (state i) children with
  | FallbackElement f => (i, ShowFallback f)
  | ChildrenElement c =>
      match draw c with
      | Painted r => (i, ShowChildren r)
      | Thrown e info =>
          let i1 := mkInstance (getDerivedStateFromError e) (sink i) in
          let shown := retry (state i1) children in
          match bind (console_error (mkReport e info))
                     (fun _ => componentDidCatch e info) i1 with
          | (Normal _, i2) => (i2, shown)
          | (Abrupt e', i2) => (i2, Propagated e')
          end
      end
  end.

(** What can happen to a mounted boundary. *)
Inductive Event : Type :=
| Rerender (children : C)   (* the parent renders it with new props *)
| ClickTryAgain.            (* the user activates the recovery control *)

(** A mounted boundary with its current children. *)
Record Mounted : Type := mkMounted {
  instance : Instance;
  children_now : C;
  screen : Screen
}.

Definition mount (children : C) : Mounted :=
  let '(i, s) := pass children constructor in mkMounted i children s.

Definition step (m : Mounted) (ev : Event) : Mounted :=
  match ev with
  | Rerender c =>
      let '(i, s) := pass c (instance m) in mkMounted i c s
  | ClickTryAgain =>
      match screen m with
      | ShowFallback f =>
          match onClick f (instance m) with
          | (_, i1) =>
              let '(i2, s) := pass (children_now m) i1 in
              mkMounted i2 (children_now m) s
          end
      | _ => m                   (* no control on screen *)
      end
  end.

Definition run (m : Mounted) (evs : list Event) : Mounted :=
  fold_left step evs m.

Definition is_click (ev : Event) : bool :=
  match ev with ClickTryAgain => true | Rerender _ => false end.

(** The fallback element [render] returns in a failed state. *)
Definition fallback_of (s : State) : Fallback :=
  mkFallback (lit "Something went wrong.")
             (or_else (opt_get (error s) (lit "message"))
                      (VString (lit "An unexpected error occurred.")))
             (lit "Try Again")
             handleReset.

(** What is on screen agrees with the state. *)
Definition coherent (m : Mounted) : Prop :=
  if hasError (state (instance m))
  then screen m = ShowFallback (fallback_of (state (instance m)))
  else exists r, draw (children_now m) = Painted r
                 /\ screen m = ShowChildren r.

End Render.

Arguments FallbackElement {C} f.
Arguments ChildrenElement {C} children.
Arguments Painted {R} r.
Arguments Thrown {R} e errorInfo.
Arguments ShowChildren {R} r.
Arguments ShowFallback {R} f.
Arguments Propagated {R} e.
Arguments Rerender {C} children.
Arguments ClickTryAgain {C}.

End ErrorBoundary.

(** The throwing components of [ErrorBoundary.test.jsx]; a subtree on
    screen is represented by its text. *)
Module ErrorBoundaryTest.

Inductive errorType : Type := ET_string | ET_object | ET_null | ET_none.

(** [ThrowDifferentErrors] *)
Definition ThrowDifferentErrors (t : errorType) : ErrorBoundary.Drawn jsstring :=
  match t with
  | ET_string => ErrorBoundary.Thrown (VString (lit "String error")) VUndefined
  | ET_object =>
      ErrorBoundary.Thrown
        (VObject [(lit "message", VString (lit "Object error"))]) VUndefined
  | ET_null => ErrorBoundary.Thrown VNull VUndefined
  | ET_none => ErrorBoundary.Painted (lit "No error")
  end.

(** [ThrowError]: throws [new Error('Test error message')] when asked to. *)
Definition ThrowError (shouldThrow : bool) : ErrorBoundary.Drawn jsstring :=
  if shouldThrow
  then ErrorBoundary.Thrown (Error (lit "Test error message")) VUndefined
  else ErrorBoundary.Painted (lit "Normal content").

End ErrorBoundaryTest.


(* ===================================================================== *)
(** ** BugForm.jsx                                                        *)
(* ===================================================================== *)

Module BugForm.

(** The draft, [form]. *)
Record Form : Type := mkForm {
  title : jsstring;
  description : jsstring;
  status : jsstring
}.

Definition initialState : Form := mkForm empty empty (lit "open").

Definition DESCRIPTION_MAX : nat := 1000.

Record Focus : Type := mkFocus {
  focus_title : bool;
  focus_description : bool;
  focus_status : bool
}.

(** The three [useState] cells of the component. *)
Record FormState : Type := mkFormState {
  form : Form;
  formError : jsstring;
  focus : Focus
}.

Definition useState_initial : FormState :=
  mkFormState initialState empty (mkFocus false false false).

Record Props : Type := mkProps { loading : bool; error : value }.

(** [e.target.name] of the three controls. *)
Inductive FieldName : Type := Title | Description | Status.

Definition setForm (f : Form) (s : FormState) : FormState :=
  mkFormState f (formError s) (focus s).

Definition setFormError (m : jsstring) (s : FormState) : FormState :=
  mkFormState (form s) m (focus s).

Definition setFocus (u : Focus -> Focus) (s : FormState) : FormState :=
  mkFormState (form s) (formError s) (u (focus s)).

(** [{ ...form, [name]: value }] *)
Definition assign (f : Form) (name : FieldName) (v : jsstring) : Form :=
  match name with
  | Title => mkForm v (description f) (status f)
  | Description => mkForm (title f) v (status f)
  | Status => mkForm (title f) (description f) v
  end.

Definition assign_focus (f : Focus) (name : FieldName) (b : bool) : Focus :=
  match name with
  | Title => mkFocus b (focus_description f) (focus_status f)
  | Description => mkFocus (focus_title f) b (focus_status f)
  | Status => mkFocus (focus_title f) (focus_description f) b
  end.

Definition handleChange (name : FieldName) (v : jsstring) (s : FormState)
  : FormState :=
  setFormError empty (setForm (assign (form s) name v) s).

Definition handleFocus (name : FieldName) (s : FormState) : FormState :=
  setFocus (fun prev => assign_focus prev name true) s.

Definition handleBlur (name : FieldName) (s : FormState) : FormState :=
  setFocus (fun prev => assign_focus prev name false) s.

(** The second argument of [onSubmit]: [() => setForm(initialState)]. *)
Definition Reset : Type := FormState -> FormState.

(** What a handler does to the outside. *)
Inductive Effect : Type :=
| PreventDefault
| OnSubmit (payload : Form) (reset : Reset).

(** [!s] on a string *)
Definition not_str (s : jsstring) : bool := negb (truthy (VString s)).

(** [handleSubmit] *)
Definition handleSubmit (s : FormState) : FormState * list Effect :=
  if not_str (trim (title (form s))) || not_str (trim (description (form s)))
  then (setFormError (lit "Title and description are required.") s,
        [PreventDefault])
  else (s, [PreventDefault; OnSubmit (form s) (fun s' => setForm initialState s')]).

(** The calls of the external submission operation among the effects. *)
Fixpoint submissions (effs : list Effect) : list (Form * Reset) :=
  match effs with
  | [] => []
  | PreventDefault :: rest => submissions rest
  | OnSubmit payload reset :: rest => (payload, reset) :: submissions rest
  end.

(** The [<button type="submit">] of the rendered form. *)
Record Button : Type := mkButton {
  disabled : bool;
  aria_busy : bool;
  label : jsstring
}.

Definition submit_button (p : Props) : Button :=
  mkButton (loading p) (loading p)
           (if loading p then lit "Submitting..." else lit "Submit Bug").

(** [required] on the title and description controls: the browser refuses
    to submit while one of them is empty. *)
Definition value_missing (f : Form) : bool :=
  match title f, description f with
  | _ :: _, _ :: _ => false
  | _, _ => true
  end.

(** A click on the submit control, as the document delivers it: nothing on
    a disabled control; otherwise the form is asked to submit, and its
    [onSubmit={handleSubmit}] runs once the controls are valid. *)
Definition click_submit (p : Props) (s : FormState)
  : FormState * list Effect :=
  if disabled (submit_button p) then (s, [])
  else if value_missing (form s) then (s, [])
  else handleSubmit s.

End BugForm.


(* ===================================================================== *)
(** ** App.jsx                                                            *)
(* ===================================================================== *)

Module App.

(** The five [useState] cells. *)
Record State : Type := mkState {
  bugs : list Bug;
  loading : bool;
  error : value;
  formLoading : bool;
  formError : value
}.

Definition useState_initial : State :=
  mkState [] false (VString empty) false (VString empty).

(** The calls made through axios.  [Put] carries [{ ...bug, status }],
    where [bug] is what [bugs.find] returned. *)
Inductive Request : Type :=
| Get
| Post (bug : BugForm.Form)
| Delete (id : jsstring)
| Put (id : jsstring) (bug : option Bug) (status : jsstring).

(** How a call settles: fulfilled with [res.data], or rejected with [err]. *)
Inductive Settled : Type :=
| Resolved (data : list Bug)
| Rejected (err : value).

(** Bodies of the asynchronous handlers. *)
Inductive Prog : Type :=
| Ret
| Throw (e : value)
| SetBugs (f : list Bug -> list Bug) (k : Prog)
| SetLoading (b : bool) (k : Prog)
| SetError (v : value) (k : Prog)
| SetFormLoading (b : bool) (k : Prog)
| SetFormError (v : value) (k : Prog)
| Invoke (callback : BugForm.Reset) (k : Prog)
| Await (r : Request) (k : Settled -> Prog)
| Spawn (p : Prog) (k : Prog).      (* an async call that is not awaited *)

Fixpoint seq (p q : Prog) : Prog :=
  match p with
  | Ret => q
  | Throw e => Throw e
  | SetBugs f k => SetBugs f (seq k q)
  | SetLoading b k => SetLoading b (seq k q)
  | SetError v k => SetError v (seq k q)
  | SetFormLoading b k => SetFormLoading b (seq k q)
  | SetFormError v k => SetFormError v (seq k q)
  | Invoke c k => Invoke c (seq k q)
  | Await r k => Await r (fun o => seq (k o) q)
  | Spawn p' k => Spawn p' (seq k q)
  end.

(** [try { p } catch (err) { h err }] *)
Fixpoint try_catch (p : Prog) (h : value -> Prog) : Prog :=
  match p with
  | Ret => Ret
  | Throw e => h e
  | SetBugs f k => SetBugs f (try_catch k h)
  | SetLoading b k => SetLoading b (try_catch k h)
  | SetError v k => SetError v (try_catch k h)
  | SetFormLoading b k => SetFormLoading b (try_catch k h)
  | SetFormError v k => SetFormError v (try_catch k h)
  | Invoke c k => Invoke c (try_catch k h)
  | Await r k => Await r (fun o => try_catch (k o) h)
  | Spawn p' k => Spawn p' (try_catch k h)
  end.

(** [try { p } finally { f }] *)
Fixpoint try_finally (p f : Prog) : Prog :=
  match p with
  | Ret => f
  | Throw e => seq f (Throw e)
  | SetBugs g k => SetBugs g (try_finally k f)
  | SetLoading b k => SetLoading b (try_finally k f)
  | SetError v k => SetError v (try_finally k f)
  | SetFormLoading b k => SetFormLoading b (try_finally k f)
  | SetFormError v k => SetFormError v (try_finally k f)
  | Invoke c k => Invoke c (try_finally k f)
  | Await r k => Await r (fun o => try_finally (k o) f)
  | Spawn p' k => Spawn p' (try_finally k f)
  end.

Declare Scope prog_scope.
Delimit Scope prog_scope with prog.
Bind Scope prog_scope with Prog.
Notation "p ;; q" := (seq p q)
  (at level 61, right associativity) : prog_scope.
Notation "'TRY' p 'CATCH' h 'FINALLY' f" :=
  (try_finally (try_catch p h) f)
  (at level 60, p at level 200, h at level 9, f at level 60) : prog_scope.
Local Open Scope prog_scope.

Definition setBugs (f : list Bug -> list Bug) : Prog := SetBugs f Ret.
Definition setLoading (b : bool) : Prog := SetLoading b Ret.
Definition setError (v : value) : Prog := SetError v Ret.
Definition setFormLoading (b : bool) : Prog := SetFormLoading b Ret.
Definition setFormError (v : value) : Prog := SetFormError v Ret.
Definition call (c : BugForm.Reset) : Prog := Invoke c Ret.

(** [const res = await axios...; k res.data] *)
Definition await (r : Request) (k : list Bug -> Prog) : Prog :=
  Await r (fun o =>
    match o with Resolved data => k data | Rejected err => Throw err end).

(** [err.response?.data?.message || fallback]; reading [.response] off
    [null] or [undefined] is a [TypeError]. *)
Definition TypeError : value :=
  Error (lit "Cannot read properties of null or undefined").

Definition message_or (err : value) (fallback : string) (k : value -> Prog)
  : Prog :=
  match err with
  | VUndefined | VNull => Throw TypeError
  | _ =>
      k (or_else
           (opt_get (opt_get (opt_get err (lit "response")) (lit "data"))
                    (lit "message"))
           (VString (lit fallback)))
  end.

(** [bugs.find((b) => b._id === id)] *)
Definition find_bug (id : jsstring) (l : list Bug) : option Bug :=
  List.find (fun b => str_eqb (_id b) id) l.

Definition fetchBugs : Prog :=
  setLoading true ;;
  setError (VString empty) ;;
  TRY
    await Get (fun data => setBugs (fun _ => data))
  CATCH (fun err => message_or err "Failed to fetch bugs" setError)
  FINALLY
    setLoading false.

Definition handleCreateBug (bug : BugForm.Form) (resetForm : BugForm.Reset)
  : Prog :=
  setFormLoading true ;;
  setFormError (VString empty) ;;
  TRY
    await (Post bug) (fun _ => call resetForm ;; Spawn fetchBugs Ret)
  CATCH (fun err => message_or err "Failed to create bug" setFormError)
  FINALLY
    setFormLoading false.

Definition handleDeleteBug (id : jsstring) : Prog :=
  setLoading true ;;
  setError (VString empty) ;;
  TRY
    await (Delete id) (fun _ =>
      setBugs (fun prev =>
        filter (fun b => negb (str_eqb (_id b) id)) prev))
  CATCH (fun err => message_or err "Failed to delete bug" setError)
  FINALLY
    setLoading false.

(** [bugs_seen] is the [bugs] of the render that created the handler. *)
Definition handleStatusChange (bugs_seen : list Bug) (id status : jsstring)
  : Prog :=
  setLoading true ;;
  setError (VString empty) ;;
  TRY
    (let bug := find_bug id bugs_seen in
     await (Put id bug status) (fun _ =>
       setBugs (fun prev =>
         map (fun b =>
                if str_eqb (_id b) id
                then mkBug (_id b) (title b) (description b) status
                           (createdAt b) (updatedAt b)
                else b) prev)))
  CATCH (fun err => message_or err "Failed to update status" setError)
  FINALLY
    setLoading false.

(** *** Running a handler

    A handler runs until it awaits; the rest waits for the call to settle. *)
Record Task : Type := mkTask { request : Request; resume : Settled -> Prog }.

Record World : Type := mkWorld {
  app : State;
  pending : list Task;
  invoked : list BugForm.Reset
}.

Inductive Status : Type :=
| Finished
| Raised (e : value)
| Suspended.

Definition update (u : State -> State) (w : World) : World :=
  mkWorld (u (app w)) (pending w) (invoked w).

Fixpoint exec (p : Prog) (w : World) : Status * World :=
  match p with
  | Ret => (Finished, w)
  | Throw e => (Raised e, w)
  | SetBugs f k =>
      exec k (update (fun s => mkState (f (bugs s)) (loading s) (error s)
                                       (formLoading s) (formError s)) w)
  | SetLoading b k =>
      exec k (update (fun s => mkState (bugs s) b (error s)
                                       (formLoading s) (formError s)) w)
  | SetError v k =>
      exec k (update (fun s => mkState (bugs s) (loading s) v
                                       (formLoading s) (formError s)) w)
  | SetFormLoading b k =>
      exec k (update (fun s => mkState (bugs s) (loading s) (error s)
                                       b (formError s)) w)
  | SetFormError v k =>
      exec k (update (fun s => mkState (bugs s) (loading s) (error s)
                                       (formLoading s) v) w)
  | Invoke c k =>
      exec k (mkWorld (app w) (pending w) (invoked w ++ [c]))
  | Await r k =>
      (Suspended, mkWorld (app w) (pending w ++ [mkTask r k]) (invoked w))
  | Spawn p' k => exec k (snd (exec p' w))
  end.

(** The call of the [n]-th waiting task settles. *)
Fixpoint take_task (n : nat) (l : list Task) : option (Task * list Task) :=
  match l, n with
  | [], _ => None
  | t :: rest, O => Some (t, rest)
  | t :: rest, S n' =>
      match take_task n' rest with
      | Some (t', rest') => Some (t', t :: rest')
      | None => None
      end
  end.

Definition settle (n : nat) (o : Settled) (w : World)
  : option (Status * World) :=
  match take_task n (pending w) with
  | Some (t, rest) =>
      Some (exec (resume t o) (mkWorld (app w) rest (invoked w)))
  | None => None
  end.

(** A world with nothing in flight. *)
Definition idle (s : State) : World := mkWorld s [] [].

(** The busy flag each handler owns. *)
Inductive Handler : Type :=
| FetchBugs
| HandleCreateBug (bug : BugForm.Form) (resetForm : BugForm.Reset)
| HandleDeleteBug (id : jsstring)
| HandleStatusChange (bugs_seen : list Bug) (id status : jsstring).

Definition body (h : Handler) : Prog :=
  match h with
  | FetchBugs => fetchBugs
  | HandleCreateBug bug resetForm => handleCreateBug bug resetForm
  | HandleDeleteBug id => handleDeleteBug id
  | HandleStatusChange bugs_seen id status =>
      handleStatusChange bugs_seen id status
  end.

Definition busy (h : Handler) (s : State) : bool :=
  match h with
  | HandleCreateBug _ _ => formLoading s
  | _ => loading s
  end.

Definition stored_error (h : Handler) (s : State) : value :=
  match h with
  | HandleCreateBug _ _ => formError s
  | _ => error s
  end.

Definition generic_message (h : Handler) : string :=
  match h with
  | FetchBugs => "Failed to fetch bugs"
  | HandleCreateBug _ _ => "Failed to create bug"
  | HandleDeleteBug _ => "Failed to delete bug"
  | HandleStatusChange _ _ _ => "Failed to update status"
  end.

(** The message a handler stores for a rejection [err]. *)
Definition readable_message (h : Handler) (err : value) : value :=
  or_else
    (opt_get (opt_get (opt_get err (lit "response")) (lit "data"))
             (lit "message"))
    (VString (lit (generic_message h))).

End App.


(* ===================================================================== *)
(** ** models/Bug.js                                                      *)
(* ===================================================================== *)

Module Model.

(** The options of a [String] path that the schema uses. *)
Record StringPath : Type := mkPath {
  required : bool;
  trim : bool;
  maxlength : option nat;
  enum : option (list jsstring);
  default : option jsstring
}.

Record Schema : Type := mkSchema {
  path_title : StringPath;
  path_description : StringPath;
  path_status : StringPath;
  timestamps : bool
}.

Definition statuses : list jsstring :=
  [lit "open"; lit "in-progress"; lit "resolved"].

Definition bugSchema : Schema :=
  mkSchema
    (mkPath true true (Some 100) None None)
    (mkPath true true (Some 1000) None None)
    (mkPath false false None (Some statuses) (Some (lit "open")))
    true.

(** What the String cast of Mongoose makes of the JSON value found under
    a key of a body, and what a document holds under a path. *)
Inductive FieldValue : Type :=
| Absent                (* no such key: [undefined] *)
| Null                  (* [null], which the cast lets through *)
| Text (s : jsstring)   (* a string; a number or a boolean gives its text *)
| Uncastable.           (* an array or a plain object: a CastError *)

(** The three paths of a document or of a request body. *)
Record Fields : Type := mkFields {
  title : FieldValue;
  description : FieldValue;
  status : FieldValue
}.

(** *** The meaning Mongoose gives to the options *)

(** Setters run when a value is assigned to a path: [trim] works on
    strings and leaves [null] and [undefined] alone. *)
Definition set_path (sp : StringPath) (v : FieldValue) : FieldValue :=
  match v with
  | Text s => Text (if trim sp then Js.trim s else s)
  | _ => v
  end.

(** [default] fills a path that is [undefined], and only that. *)
Definition with_default (sp : StringPath) (v : FieldValue) : FieldValue :=
  match v with
  | Absent =>
      match default sp with
      | Some d => Text d
      | None => Absent
      end
  | _ => v
  end.

(** A value that could not be cast invalidates its path. *)
Definition check_cast (v : FieldValue) : bool :=
  match v with
  | Uncastable => false
  | _ => true
  end.

(** [required]: the value is a string and not the empty one; [null] and
    [undefined] fail. *)
Definition check_required (sp : StringPath) (v : FieldValue) : bool :=
  if required sp then
    match v with
    | Text (_ :: _) => true
    | _ => false
    end
  else true.

(** The other validators pass [null] and do not run on [undefined]. *)
Definition check_maxlength (sp : StringPath) (v : FieldValue) : bool :=
  match maxlength sp, v with
  | Some n, Text s => (List.length s <=? n)%nat
  | _, _ => true
  end.

Definition check_enum (sp : StringPath) (v : FieldValue) : bool :=
  match enum sp, v with
  | Some vals, Text s => existsb (str_eqb s) vals
  | _, _ => true
  end.

Definition validate_path (sp : StringPath) (v : FieldValue) : bool :=
  check_cast v && check_required sp v && check_maxlength sp v
  && check_enum sp v.

(** [new Bug({ title, description, status })] *)
Definition new_Bug (sch : Schema) (body : Fields) : Fields :=
  mkFields
    (with_default (path_title sch) (set_path (path_title sch) (title body)))
    (with_default (path_description sch)
       (set_path (path_description sch) (description body)))
    (with_default (path_status sch) (set_path (path_status sch) (status body))).

(** [bug.validate()], run by [save()] *)
Definition validate (sch : Schema) (d : Fields) : bool :=
  validate_path (path_title sch) (title d)
  && validate_path (path_description sch) (description d)
  && validate_path (path_status sch) (status d).

(** An update document: keys that are [undefined] are dropped, the others
    are cast through the setters. *)
Definition cast_update (sch : Schema) (body : Fields) : Fields :=
  mkFields
    (set_path (path_title sch) (title body))
    (set_path (path_description sch) (description body))
    (set_path (path_status sch) (status body)).

(** [runValidators: true]: the validators of the paths the update sets. *)
Definition validate_set (sp : StringPath) (v : FieldValue) : bool :=
  match v with
  | Absent => true
  | _ => validate_path sp v
  end.

Definition validate_update (sch : Schema) (u : Fields) : bool :=
  validate_set (path_title sch) (title u)
  && validate_set (path_description sch) (description u)
  && validate_set (path_status sch) (status u).

(** A stored document. *)
Record Doc : Type := mkDoc {
  _id : nat;
  fields : Fields;
  createdAt : Z;
  updatedAt : Z
}.

Definition override (old new : FieldValue) : FieldValue :=
  match new with
  | Absent => old
  | _ => new
  end.

(** [$set] of the update on a stored document, with the [updatedAt]
    refresh of [timestamps: true]. *)
Definition apply_update (u : Fields) (now : Z) (d : Doc) : Doc :=
  mkDoc (_id d)
        (mkFields (override (title (fields d)) (title u))
                  (override (description (fields d)) (description u))
                  (override (status (fields d)) (status u)))
        (createdAt d) now.

End Model.

(* ===================================================================== *)
(** ** controllers/bugController.js                                       *)
(* ===================================================================== *)

Module Controller.

Import Model.

(** The collection, in insertion order. *)
Definition Store : Type := list Doc.

Inductive Response : Type :=
| Json (docs : list Doc)          (* res.json(bugs) *)
| JsonDoc (d : Doc)               (* res.json(bug) *)
| Created (d : Doc)               (* res.status(201).json(bug) *)
| NotFound                        (* 404, 'Bug not found' *)
| Deleted                         (* 'Bug deleted' *)
| NextErr.                        (* next(err) *)

(** [req.params.id]: the text of an ObjectId, or anything else, on which
    the query throws a CastError. *)
Inductive IdParam : Type :=
| ObjectId (id : nat)
| Malformed.

(** [.sort({ createdAt: -1 })] *)
Fixpoint insert_desc (d : Doc) (l : list Doc) : list Doc :=
  match l with
  | [] => [d]
  | x :: rest =>
      if (createdAt x <? createdAt d)%Z then d :: l
      else x :: insert_desc d rest
  end.

Fixpoint sort_createdAt_desc (l : list Doc) : list Doc :=
  match l with
  | [] => []
  | d :: rest => insert_desc d (sort_createdAt_desc rest)
  end.

(** [Bug.find()] *)
Definition find (s : Store) : list Doc := s.

Definition findById (id : nat) (s : Store) : option Doc :=
  List.find (fun d => (_id d =? id)%nat) s.

Fixpoint replace (id : nat) (f : Doc -> Doc) (s : Store) : Store :=
  match s with
  | [] => []
  | d :: rest =>
      if (_id d =? id)%nat then f d :: rest else d :: replace id f rest
  end.

Fixpoint remove (id : nat) (s : Store) : Store :=
  match s with
  | [] => []
  | d :: rest => if (_id d =? id)%nat then rest else d :: remove id rest
  end.

Definition getBugs (s : Store) : Store * Response :=
  (s, Json (sort_createdAt_desc (find s))).

Definition getBug (p : IdParam) (s : Store) : Store * Response :=
  match p with
  | Malformed => (s, NextErr)           (* catch (err) next(err) *)
  | ObjectId id =>
      match findById id s with
      | None => (s, NotFound)
      | Some d => (s, JsonDoc d)
      end
  end.

(** [oid] is the identifier the driver generates, [now] the clock. *)
Definition createBug (body : Fields) (oid : nat) (now : Z) (s : Store)
  : Store * Response :=
  let bug := new_Bug bugSchema body in
  if validate bugSchema bug then
    match findById oid s with
    | Some _ => (s, NextErr)            (* duplicate key *)
    | None =>
        let d := mkDoc oid bug now now in
        (s ++ [d], Created d)
    end
  else (s, NextErr).

Definition updateBug (p : IdParam) (body : Fields) (now : Z) (s : Store)
  : Store * Response :=
  match p with
  | Malformed => (s, NextErr)
  | ObjectId id =>
      let u := cast_update bugSchema body in
      if validate_update bugSchema u then
        match findById id s with
        | None => (s, NotFound)
        | Some d =>
            (replace id (apply_update u now) s,
             JsonDoc (apply_update u now d))
        end
      else (s, NextErr)
  end.

Definition deleteBug (p : IdParam) (s : Store) : Store * Response :=
  match p with
  | Malformed => (s, NextErr)
  | ObjectId id =>
      match findById id s with
      | None => (s, NotFound)
      | Some _ => (remove id s, Deleted)
      end
  end.

(** The routes of the API. *)
Inductive Call : Type :=
| GET_all
| GET_one (id : IdParam)
| POST (body : Fields) (oid : nat) (now : Z)
| PUT (id : IdParam) (body : Fields) (now : Z)
| DELETE (id : IdParam).

Definition handle (c : Call) (s : Store) : Store * Response :=
  match c with
  | GET_all => getBugs s
  | GET_one id => getBug id s
  | POST body oid now => createBug body oid now s
  | PUT id body now => updateBug id body now s
  | DELETE id => deleteBug id s
  end.

(** The store after a sequence of calls. *)
Definition serve (calls : list Call) (s : Store) : Store :=
  fold_left (fun st c => fst (handle c st)) calls s.

(** What the data model promises of a stored record. *)
Definition text_ok (bound : nat) (v : FieldValue) : Prop :=
  match v with
  | Text t =>
      t <> [] /\ Js.trim t = t
      /\ (exists c, In c t /\ is_white_space c = false)
      /\ (List.length t <= bound)%nat
  | _ => False
  end.





(** The order of the list answer: no record is followed by a newer one. *)
Definition newest_first (a b : Doc) : Prop := (createdAt b <= createdAt a)%Z.

End Controller.


(* ===================================================================== *)
(** ** StatusUpdate.jsx                                                   *)
(* ===================================================================== *)

Module StatusUpdate.

Record Option_ : Type := mkOption { value : jsstring; label : jsstring }.

Definition statuses : list Option_ :=
  [ mkOption (lit "open") (lit "Open");
    mkOption (lit "in-progress") (lit "In Progress");
    mkOption (lit "resolved") (lit "Resolved") ].

(** The [<select>]: its current value and one [<option>] per status. *)
Record Select : Type := mkSelect {
  selected : jsstring;
  options : list Option_
}.

Definition StatusUpdate (currentStatus : jsstring) : Select :=
  mkSelect currentStatus (map (fun s => s) statuses).

(** The user picks the [n]-th option; [onChange] receives
    [e.target.value], the value of that option. *)
Definition pick (sel : Select) (n : nat) : option jsstring :=
  match nth_error (options sel) n with
  | Some o => Some (value o)
  | None => None
  end.

End StatusUpdate.

(* ===================================================================== *)
(** ** BugItem.jsx                                                        *)
(* ===================================================================== *)

Module BugItem.

(** [s.replace(p, r)] with one-character strings [p] and [r]: the first
    occurrence only. *)
Fixpoint replace_first (p r : N) (s : jsstring) : jsstring :=
  match s with
  | [] => []
  | c :: s' => if code_eqb c p then r :: s' else c :: replace_first p r s'
  end.

Definition hyphen : N := 45.
Definition space : N := 32.

(** What the item calls on its parent. *)
Inductive Upcall : Type :=
| OnDelete (id : jsstring)
| OnStatusChange (id : jsstring) (status : jsstring).

(** The texts and controls of one [<li>]; the two dates are left to the
    locale. *)
Record Item : Type := mkItem {
  title_text : jsstring;
  badge_text : jsstring;
  description_text : jsstring;
  status_control : StatusUpdate.Select;
  delete_click : Upcall;
  status_change : jsstring -> Upcall
}.

Definition BugItem (bug : Bug) : Item :=
  mkItem (title bug)
         (replace_first hyphen space (status bug))
         (description bug)
         (StatusUpdate.StatusUpdate (status bug))
         (OnDelete (_id bug))
         (fun status => OnStatusChange (_id bug) status).


End BugItem.

(* ===================================================================== *)
(** ** App.jsx: what [App] renders and how it wires the children          *)
(* ===================================================================== *)

Module AppView.

(** [<BugForm onSubmit={handleCreateBug} loading={formLoading}
      error={formError} />] *)
Definition form_props (s : App.State) : BugForm.Props :=
  BugForm.mkProps (App.formLoading s) (App.formError s).

(** [<BugList bugs={bugs} ... loading={loading} error={error} />] *)
Definition list_props (s : App.State) : BugListView.Props :=
  BugListView.mkProps (App.bugs s) (App.loading s) (App.error s).

(** [onDelete={handleDeleteBug}], [onStatusChange={handleStatusChange}];
    the handlers are those of the render that saw [App.bugs s]. *)
Definition on_upcall (s : App.State) (u : BugItem.Upcall) : App.Handler :=
  match u with
  | BugItem.OnDelete id => App.HandleDeleteBug id
  | BugItem.OnStatusChange id status =>
      App.HandleStatusChange (App.bugs s) id status
  end.

(** [onSubmit={handleCreateBug}] *)
Definition on_submit (call : BugForm.Form * BugForm.Reset) : App.Handler :=
  App.HandleCreateBug (fst call) (snd call).

(** The three fields the controller reads off the JSON body of
    [axios.post(API_URL, bug)]. *)
Definition post_body (f : BugForm.Form) : Model.Fields :=
  Model.mkFields (Model.Text (BugForm.title f))
                 (Model.Text (BugForm.description f))
                 (Model.Text (BugForm.status f)).

(** The same for [axios.put(url, { ...bug, status })]; spreading
    [undefined] contributes no key. *)
Definition put_body (bug : option Bug) (status : jsstring) : Model.Fields :=
  match bug with
  | Some b =>
      Model.mkFields (Model.Text (title b)) (Model.Text (description b))
                     (Model.Text status)
  | None => Model.mkFields Model.Absent Model.Absent (Model.Text status)
  end.

End AppView.

(* ===================================================================== *)
(** ** Bodies the schema accepts                                          *)
(* ===================================================================== *)

Module Acceptance.

Import Model.

(** The bodies that pass the validation of a new document, spelled out:
    title and description strings that are not blank once trimmed and
    within their bounds; status absent, [null] or one of the three. *)
Definition acceptable (body : Fields) : Prop :=
  (exists t, title body = Text t /\ Js.trim t <> []
             /\ (List.length (Js.trim t) <= 100)%nat)
  /\ (exists d, description body = Text d /\ Js.trim d <> []
                /\ (List.length (Js.trim d) <= 1000)%nat)
  /\ match status body with
     | Text st => In st statuses
     | Absent | Null => True
     | Uncastable => False
     end.

(** The same for an update: each field that is present must be fine, and
    only the status may be [null]. *)
Definition updatable (body : Fields) : Prop :=
  match title body with
  | Text t => Js.trim t <> [] /\ (List.length (Js.trim t) <= 100)%nat
  | Absent => True
  | Null | Uncastable => False
  end
  /\ match description body with
     | Text d => Js.trim d <> [] /\ (List.length (Js.trim d) <= 1000)%nat
     | Absent => True
     | Null | Uncastable => False
     end
  /\ match status body with
     | Text st => In st statuses
     | Absent | Null => True
     | Uncastable => False
     end.

End Acceptance.

(* ===================================================================== *)
(** * Theorems                                                            *)
(* ===================================================================== *)

Unset Implicit Arguments.

(** ** Strings *)

Lemma str_eqb_eq (a b : jsstring) : str_eqb a b = true -> a = b.
Proof.
  revert b; induction a as [|x a IH]; intros [|y b]; simpl;
    try discriminate; auto.
  intros H. apply andb_true_iff in H as [Hx Hr].
  apply N.eqb_eq in Hx. subst y. f_equal. now apply IH.
Qed.

Lemma str_eqb_refl (a : jsstring) : str_eqb a a = true.
Proof.
  induction a as [|x a IH]; simpl; auto.
  unfold code_eqb. now rewrite N.eqb_refl.
Qed.

Lemma trimStart_head (s : jsstring) :
  match trimStart s with
  | [] => True
  | c :: _ => is_white_space c = false
  end.
Proof.
  induction s as [|c s IH]; simpl; auto.
  destruct (is_white_space c) eqn:E; auto.
Qed.

Lemma trimStart_fixed (c : N) (s : jsstring) :
  is_white_space c = false -> trimStart (c :: s) = c :: s.
Proof. intros H; simpl; now rewrite H. Qed.







(** A string of white space only trims to the empty string. *)
Lemma trim_blank (s : jsstring) :
  forallb is_white_space s = true -> trim s = [].
Proof.
  intros H. unfold trim.
  assert (E : trimStart s = []).
  { induction s as [|c s IH]; simpl in *; auto.
    apply andb_true_iff in H as [Hc Hs]. rewrite Hc. now apply IH. }
  now rewrite E.
Qed.

(** ** BugList *)

Lemma BugList_loading_first (l : list Bug) (err : value) :
  BugListView.BugList (BugListView.mkProps l true err)
  = BugListView.LoadingView.
Proof. reflexivity. Qed.

(** C1 (the code departs from it).  With [loading = true] and the error
    ['Failed to fetch bugs'], the input of the test "should not show
    loading state when error exists", [BugList] returns the loading view
    and not the error view. *)
Theorem BugList_loading_hides_error :
  let p := BugListView.mkProps [] true (VString (lit "Failed to fetch bugs")) in
  truthy (BugListView.error p) = true
  /\ BugListView.BugList p = BugListView.LoadingView
  /\ BugListView.BugList p <> BugListView.ErrorView (BugListView.error p).
Proof.
  cbv zeta. split; [reflexivity|]. split; [reflexivity|].
  rewrite BugList_loading_first. discriminate.
Qed.

(** ** ErrorBoundary *)

Section BoundaryFacts.

Import ErrorBoundary.

Variables C R : Type.
Variable draw : C -> Drawn R.

Lemma render_failed (s : State) (c : C) :
  hasError s = true -> render s c = FallbackElement (fallback_of s).
Proof. intros H; unfold render; now rewrite H. Qed.

Lemma render_normal (s : State) (c : C) :
  hasError s = false -> render s c = ChildrenElement c.
Proof. intros H; unfold render; now rewrite H. Qed.

(** Whatever is thrown, the boundary captures it: the state becomes
    failed with the thrown value stored, the failure is reported, the
    fallback is on screen and nothing leaves the boundary. *)
Lemma pass_captures (c : C) (i : Instance) (e info : value) :
  hasError (state i) = false ->
  draw c = Thrown e info ->
  pass draw c i
  = (mkInstance (mkState true e) (sink i ++ [mkReport e info]),
     ShowFallback (fallback_of (mkState true e))).
Proof.
  intros Hn Hd. unfold pass. rewrite (render_normal _ c Hn), Hd.
  reflexivity.
Qed.

Lemma pass_paints (c : C) (i : Instance) (r : R) :
  hasError (state i) = false ->
  draw c = Painted r ->
  pass draw c i = (i, ShowChildren r).
Proof.
  intros Hn Hd. unfold pass. now rewrite (render_normal _ c Hn), Hd.
Qed.

Lemma pass_failed (c : C) (i : Instance) :
  hasError (state i) = true ->
  pass draw c i = (i, ShowFallback (fallback_of (state i))).
Proof.
  intros Hf. unfold pass. now rewrite (render_failed _ c Hf).
Qed.

(** The fallback never fails to render: the text is a value in every
    case, the generic one when the stored value is [null] or
    [undefined]. *)
Lemma fallback_null_undefined :
  message (fallback_of (mkState true VNull))
  = VString (lit "An unexpected error occurred.")
  /\ message (fallback_of (mkState true VUndefined))
     = VString (lit "An unexpected error occurred.").
Proof. split; reflexivity. Qed.

Lemma fallback_Error (msg : jsstring) :
  msg <> [] ->
  message (fallback_of (mkState true (Error msg))) = VString msg.
Proof.
  intros H. destruct msg as [|c m]; [congruence|]. reflexivity.
Qed.

Lemma pass_coherent (c : C) (i : Instance) :
  coherent draw (let '(i', s) := pass draw c i in mkMounted i' c s).
Proof.
  destruct (hasError (state i)) eqn:Hs.
  - rewrite (pass_failed c i Hs). unfold coherent; simpl. now rewrite Hs.
  - destruct (draw c) as [r|e info] eqn:Hd.
    + rewrite (pass_paints c i r Hs Hd). unfold coherent; simpl.
      rewrite Hs. now exists r.
    + rewrite (pass_captures c i e info Hs Hd). reflexivity.
Qed.

Lemma mount_coherent (c : C) : coherent draw (mount draw c).
Proof. unfold mount. apply pass_coherent. Qed.

Lemma step_coherent (m : Mounted C R) (ev : Event C) :
  coherent draw m -> coherent draw (step draw m ev).
Proof.
  intros Hm. destruct ev as [c|]; simpl.
  - apply pass_coherent.
  - destruct (screen m) as [r|f|e] eqn:Hs; auto.
    destruct (onClick f (instance m)) as [x i1].
    apply pass_coherent.
Qed.

Lemma run_coherent (evs : list (Event C)) (m : Mounted C R) :
  coherent draw m -> coherent draw (run draw m evs).
Proof.
  revert m; induction evs as [|ev evs IH]; intros m Hm; simpl; auto.
  apply IH. now apply step_coherent.
Qed.

Lemma rerender_failed (m : Mounted C R) (c : C) :
  hasError (state (instance m)) = true ->
  let m' := step draw m (Rerender c) in
  instance m' = instance m
  /\ screen m' = ShowFallback (fallback_of (state (instance m))).
Proof.
  intros Hf. simpl. rewrite (pass_failed c _ Hf). now split.
Qed.

Lemma rerenders_failed (evs : list (Event C)) (m : Mounted C R) :
  hasError (state (instance m)) = true ->
  coherent draw m ->
  forallb (fun ev => negb (is_click ev)) evs = true ->
  let m' := run draw m evs in
  instance m' = instance m
  /\ screen m' = ShowFallback (fallback_of (state (instance m))).
Proof.
  revert m; induction evs as [|ev evs IH]; intros m Hf Hc Hevs.
  - simpl. split; auto. unfold coherent in Hc. now rewrite Hf in Hc.
  - simpl in Hevs. apply andb_true_iff in Hevs as [Hev Hrest].
    destruct ev as [c|]; [|discriminate].
    destruct (rerender_failed m c Hf) as [Hi Hs].
    assert (Hf' : hasError (state (instance (step draw m (Rerender c)))) = true)
      by now rewrite Hi.
    specialize (IH (step draw m (Rerender c)) Hf'
                   (step_coherent m (Rerender c) Hc) Hrest).
    cbv zeta in IH. rewrite Hi in IH. exact IH.
Qed.

End BoundaryFacts.

Import ErrorBoundaryTest.

(** C2 (the code departs from it).  Every raised value is captured and
    the fallback is rendered without anything leaving the boundary, also
    for [null]; but for the raised plain string ['String error'], which
    the test "should handle different types of errors" expects on screen,
    the description is the generic message: [render] reads [.message],
    which a string does not have. *)
Theorem boundary_string_error_is_generic :
  let m := ErrorBoundary.mount ThrowDifferentErrors ET_string in
  ErrorBoundary.state (ErrorBoundary.instance m)
  = ErrorBoundary.mkState true (VString (lit "String error"))
  /\ (exists f, ErrorBoundary.screen m = ErrorBoundary.ShowFallback f
        /\ ErrorBoundary.heading f = lit "Something went wrong."
        /\ ErrorBoundary.button_label f = lit "Try Again"
        /\ ErrorBoundary.message f
           = VString (lit "An unexpected error occurred.")
        /\ ErrorBoundary.message f <> VString (lit "String error")).
Proof.
  cbv zeta. split; [reflexivity|].
  eexists. split; [reflexivity|]. repeat split. discriminate.
Qed.

(** The other raised values of the tests are described as expected. *)
Lemma boundary_other_errors :
  (exists f, ErrorBoundary.screen
               (ErrorBoundary.mount ThrowDifferentErrors ET_object)
             = ErrorBoundary.ShowFallback f
             /\ ErrorBoundary.message f = VString (lit "Object error"))
  /\ (exists f, ErrorBoundary.screen
                  (ErrorBoundary.mount ThrowDifferentErrors ET_null)
                = ErrorBoundary.ShowFallback f
                /\ ErrorBoundary.message f
                   = VString (lit "An unexpected error occurred."))
  /\ (exists f, ErrorBoundary.screen (ErrorBoundary.mount ThrowError true)
                = ErrorBoundary.ShowFallback f
                /\ ErrorBoundary.message f
                   = VString (lit "Test error message")).
Proof. repeat split; eexists; split; reflexivity. Qed.

(** Let a boundary be mounted and driven by any events into the failed
    state.  Then (1) re-renders, whatever children they bring, leave the
    instance as it is and the fallback on screen; (2) [handleReset]
    returns and stores [{ hasError: false, error: null }]; (3) in that
    state [render] returns the children; (4) after the click on the
    recovery control the boundary renders its current children: they are
    on screen when they paint, and a new failure is captured when they
    throw again. *)
Lemma boundary_failed_until_reset
  (C R : Type) (draw : C -> ErrorBoundary.Drawn R)
  (c0 : C) (evs0 : list (ErrorBoundary.Event C)) :
  let m := ErrorBoundary.run draw (ErrorBoundary.mount draw c0) evs0 in
  ErrorBoundary.hasError (ErrorBoundary.state (ErrorBoundary.instance m)) = true ->
  (forall evs,
      forallb (fun ev => negb (ErrorBoundary.is_click ev)) evs = true ->
      ErrorBoundary.instance (ErrorBoundary.run draw m evs)
      = ErrorBoundary.instance m
      /\ ErrorBoundary.screen (ErrorBoundary.run draw m evs)
         = ErrorBoundary.ShowFallback
             (ErrorBoundary.fallback_of
                (ErrorBoundary.state (ErrorBoundary.instance m))))
  /\ ErrorBoundary.handleReset (ErrorBoundary.instance m)
     = (ErrorBoundary.Normal tt,
        ErrorBoundary.mkInstance (ErrorBoundary.mkState false VNull)
          (ErrorBoundary.sink (ErrorBoundary.instance m)))
  /\ (forall c : C,
        ErrorBoundary.render (ErrorBoundary.mkState false VNull) c
        = ErrorBoundary.ChildrenElement c)
  /\ match draw (ErrorBoundary.children_now m) with
     | ErrorBoundary.Painted r =>
         ErrorBoundary.state
           (ErrorBoundary.instance
              (ErrorBoundary.step draw m ErrorBoundary.ClickTryAgain))
         = ErrorBoundary.mkState false VNull
         /\ ErrorBoundary.screen
              (ErrorBoundary.step draw m ErrorBoundary.ClickTryAgain)
            = ErrorBoundary.ShowChildren r
     | ErrorBoundary.Thrown e _ =>
         ErrorBoundary.state
           (ErrorBoundary.instance
              (ErrorBoundary.step draw m ErrorBoundary.ClickTryAgain))
         = ErrorBoundary.mkState true e
     end.
Proof.
  intros m Hf.
  assert (Hc : ErrorBoundary.coherent draw m).
  { apply run_coherent, mount_coherent. }
  split; [|split; [|split]].
  - intros evs Hevs. now apply rerenders_failed.
  - reflexivity.
  - intros c. reflexivity.
  - pose proof Hc as Hs. unfold ErrorBoundary.coherent in Hs.
    rewrite Hf in Hs.
    unfold ErrorBoundary.step. rewrite Hs. cbn [ErrorBoundary.onClick
      ErrorBoundary.fallback_of ErrorBoundary.handleReset
      ErrorBoundary.setState].
    destruct (draw (ErrorBoundary.children_now m)) as [r|e info] eqn:Hd.
    + rewrite (pass_paints C R draw (ErrorBoundary.children_now m)
                 (ErrorBoundary.mkInstance (ErrorBoundary.mkState false VNull)
                    (ErrorBoundary.sink (ErrorBoundary.instance m)))
                 r eq_refl Hd).
      now split.
    + rewrite (pass_captures C R draw (ErrorBoundary.children_now m)
                 (ErrorBoundary.mkInstance (ErrorBoundary.mkState false VNull)
                    (ErrorBoundary.sink (ErrorBoundary.instance m)))
                 e info eq_refl Hd).
      reflexivity.
Qed.

Lemma boundary_failed_until_reset_witness :
  let m := ErrorBoundary.run ThrowError (ErrorBoundary.mount ThrowError true)
             [ErrorBoundary.Rerender false] in
  ErrorBoundary.hasError (ErrorBoundary.state (ErrorBoundary.instance m)) = true
  /\ ErrorBoundary.screen
       (ErrorBoundary.run ThrowError m
          [ErrorBoundary.Rerender false; ErrorBoundary.Rerender true])
     = ErrorBoundary.ShowFallback
         (ErrorBoundary.fallback_of
            (ErrorBoundary.mkState true (Error (lit "Test error message"))))
  /\ ErrorBoundary.screen
       (ErrorBoundary.step ThrowError m ErrorBoundary.ClickTryAgain)
     = ErrorBoundary.ShowChildren (lit "Normal content").
Proof.
  cbv zeta.
  pose proof (boundary_failed_until_reset bool jsstring ThrowError true
                [ErrorBoundary.Rerender false] eq_refl) as H.
  destruct H as [H1 [_ [_ H4]]].
  split; [reflexivity|]. split.
  - exact (proj2 (H1 [ErrorBoundary.Rerender false; ErrorBoundary.Rerender true]
                     eq_refl)).
  - exact (proj2 H4).
Defined.

(** The only event that leaves the failed state is the click. *)
Lemma boundary_leaves_failed_by_click_only
  (C R : Type) (draw : C -> ErrorBoundary.Drawn R)
  (m : ErrorBoundary.Mounted C R) (ev : ErrorBoundary.Event C) :
  ErrorBoundary.hasError (ErrorBoundary.state (ErrorBoundary.instance m)) = true ->
  ErrorBoundary.hasError
    (ErrorBoundary.state
       (ErrorBoundary.instance (ErrorBoundary.step draw m ev))) = false ->
  ev = ErrorBoundary.ClickTryAgain.
Proof.
  intros Hf Hn. destruct ev as [c|]; [|reflexivity].
  destruct (rerender_failed C R draw m c Hf) as [Hi _].
  rewrite Hi in Hn. congruence.
Qed.

(** C3 (the code departs from it).  The run of the test "should reset
    error state when Try Again button is clicked": the boundary fails on
    [ThrowError] with [shouldThrow], the recovery control is clicked, the
    parent re-renders with a child that does not throw.  [handleReset]
    does clear the state, but the boundary renders at once the children
    it has, which throw again; the new failure is captured, the re-render
    meets a failed boundary, and the fallback stays where the test and
    the claim expect ['Normal content']. *)
Theorem boundary_reset_is_recaptured :
  let m0 := ErrorBoundary.mount ThrowError true in
  let m1 := ErrorBoundary.step ThrowError m0 ErrorBoundary.ClickTryAgain in
  let m2 := ErrorBoundary.step ThrowError m1 (ErrorBoundary.Rerender false) in
  ErrorBoundary.hasError (ErrorBoundary.state (ErrorBoundary.instance m0)) = true
  /\ ErrorBoundary.state
       (snd (ErrorBoundary.handleReset (ErrorBoundary.instance m0)))
     = ErrorBoundary.mkState false VNull
  /\ ErrorBoundary.state (ErrorBoundary.instance m1)
     = ErrorBoundary.mkState true (Error (lit "Test error message"))
  /\ ThrowError false = ErrorBoundary.Painted (lit "Normal content")
  /\ ErrorBoundary.state (ErrorBoundary.instance m2)
     = ErrorBoundary.mkState true (Error (lit "Test error message"))
  /\ ErrorBoundary.screen m2
     = ErrorBoundary.ShowFallback
         (ErrorBoundary.fallback_of
            (ErrorBoundary.mkState true (Error (lit "Test error message"))))
  /\ ErrorBoundary.screen m2
     <> ErrorBoundary.ShowChildren (lit "Normal content").
Proof.
  cbv zeta. repeat split; try reflexivity. discriminate.
Qed.

(** A render pass reports nothing unless it captures a failure. *)
Lemma pass_reports_captures_only
  (C R : Type) (draw : C -> ErrorBoundary.Drawn R)
  (c : C) (i : ErrorBoundary.Instance) :
  match ErrorBoundary.hasError (ErrorBoundary.state i), draw c with
  | false, ErrorBoundary.Thrown e info =>
      ErrorBoundary.sink (fst (ErrorBoundary.pass draw c i))
      = ErrorBoundary.sink i ++ [ErrorBoundary.mkReport e info]
  | _, _ =>
      ErrorBoundary.sink (fst (ErrorBoundary.pass draw c i))
      = ErrorBoundary.sink i
  end.
Proof.
  destruct (ErrorBoundary.hasError (ErrorBoundary.state i)) eqn:Hs.
  - now rewrite (pass_failed C R draw c i Hs).
  - destruct (draw c) as [r|e info] eqn:Hd.
    + now rewrite (pass_paints C R draw c i r Hs Hd).
    + now rewrite (pass_captures C R draw c i e info Hs Hd).
Qed.



(** ** BugForm *)

Lemma not_str_true (s : jsstring) : BugForm.not_str s = true <-> s = [].
Proof.
  unfold BugForm.not_str; destruct s; simpl; split; intros H;
    congruence.
Qed.

Lemma not_str_false (s : jsstring) : BugForm.not_str s = false <-> s <> [].
Proof.
  unfold BugForm.not_str; destruct s; simpl; split; intros H;
    congruence.
Qed.

(** C5.  When the trimmed title or the trimmed description of the draft
    is empty, [handleSubmit] sets the validation error, calls the
    submission operation zero times and leaves the draft, untrimmed, as
    it was. *)
Theorem handleSubmit_rejects_blank (s : BugForm.FormState) :
  trim (BugForm.title (BugForm.form s)) = []
  \/ trim (BugForm.description (BugForm.form s)) = [] ->
  BugForm.formError (fst (BugForm.handleSubmit s))
  = lit "Title and description are required."
  /\ BugForm.submissions (snd (BugForm.handleSubmit s)) = []
  /\ BugForm.form (fst (BugForm.handleSubmit s)) = BugForm.form s
  /\ BugForm.focus (fst (BugForm.handleSubmit s)) = BugForm.focus s.
Proof.
  intros H. unfold BugForm.handleSubmit.
  assert (E : BugForm.not_str (trim (BugForm.title (BugForm.form s)))
              || BugForm.not_str (trim (BugForm.description (BugForm.form s)))
              = true).
  { apply orb_true_iff. destruct H as [H|H]; [left|right];
      now apply not_str_true. }
  rewrite E. repeat split.
Qed.

(** The draft typed in by a sequence of [handleChange] calls. *)
Lemma handleSubmit_rejects_blank_witness :
  let s := BugForm.handleChange BugForm.Description (lit "anything")
             BugForm.useState_initial in
  BugForm.formError (fst (BugForm.handleSubmit s))
  = lit "Title and description are required."
  /\ BugForm.submissions (snd (BugForm.handleSubmit s)) = []
  /\ BugForm.form (fst (BugForm.handleSubmit s)) = BugForm.form s
  /\ BugForm.focus (fst (BugForm.handleSubmit s)) = BugForm.focus s.
Proof.
  cbv zeta.
  apply (handleSubmit_rejects_blank
           (BugForm.handleChange BugForm.Description (lit "anything")
              BugForm.useState_initial)).
  left. reflexivity.
Defined.

(** The reverse case and the white-space-only case of the tests. *)
Lemma handleSubmit_rejects_blank_cases :
  let s1 := BugForm.handleChange BugForm.Title (lit "Test title")
              BugForm.useState_initial in
  let s2 := BugForm.handleChange BugForm.Description (lit "   ")
              (BugForm.handleChange BugForm.Title (lit "   ")
                 BugForm.useState_initial) in
  BugForm.submissions (snd (BugForm.handleSubmit s1)) = []
  /\ BugForm.submissions (snd (BugForm.handleSubmit s2)) = []
  /\ BugForm.title (BugForm.form (fst (BugForm.handleSubmit s2))) = lit "   "
  /\ BugForm.description (BugForm.form (fst (BugForm.handleSubmit s2)))
     = lit "   ".
Proof. cbv zeta. repeat split. Qed.

(** C6.  When both trimmed fields are non-empty, [handleSubmit] calls the
    submission operation exactly once, with the draft as it stands and a
    reset function; it changes nothing of the component's state itself;
    and the reset function, whenever it is called, puts the draft back to
    the initial one, with empty title and description. *)
Theorem handleSubmit_submits_once (s : BugForm.FormState) :
  trim (BugForm.title (BugForm.form s)) <> [] ->
  trim (BugForm.description (BugForm.form s)) <> [] ->
  fst (BugForm.handleSubmit s) = s
  /\ exists reset : BugForm.Reset,
       BugForm.submissions (snd (BugForm.handleSubmit s))
       = [(BugForm.form s, reset)]
       /\ forall s' : BugForm.FormState,
            BugForm.form (reset s') = BugForm.initialState
            /\ BugForm.title (BugForm.form (reset s')) = empty
            /\ BugForm.description (BugForm.form (reset s')) = empty
            /\ BugForm.formError (reset s') = BugForm.formError s'.
Proof.
  intros Ht Hd. unfold BugForm.handleSubmit.
  apply not_str_false in Ht. apply not_str_false in Hd.
  rewrite Ht, Hd. simpl. split; [reflexivity|].
  eexists. split; [reflexivity|].
  intros s'. repeat split.
Qed.

Lemma handleSubmit_submits_once_witness :
  let s := BugForm.handleChange BugForm.Status (lit "in-progress")
             (BugForm.handleChange BugForm.Description (lit "Test Description")
                (BugForm.handleChange BugForm.Title (lit "Test Bug")
                   BugForm.useState_initial)) in
  BugForm.form s
  = BugForm.mkForm (lit "Test Bug") (lit "Test Description") (lit "in-progress")
  /\ fst (BugForm.handleSubmit s) = s
  /\ exists reset : BugForm.Reset,
       BugForm.submissions (snd (BugForm.handleSubmit s))
       = [(BugForm.mkForm (lit "Test Bug") (lit "Test Description")
             (lit "in-progress"), reset)]
       /\ BugForm.title (BugForm.form (reset s)) = empty
       /\ BugForm.description (BugForm.form (reset s)) = empty.
Proof.
  cbv zeta. split; [reflexivity|].
  destruct (handleSubmit_submits_once
              (BugForm.handleChange BugForm.Status (lit "in-progress")
                 (BugForm.handleChange BugForm.Description
                    (lit "Test Description")
                    (BugForm.handleChange BugForm.Title (lit "Test Bug")
                       BugForm.useState_initial))))
    as [H1 [reset [H2 H3]]].
  - vm_compute. discriminate.
  - vm_compute. discriminate.
  - split; [exact H1|]. exists reset. split; [exact H2|].
    destruct (H3 (BugForm.handleChange BugForm.Status (lit "in-progress")
                 (BugForm.handleChange BugForm.Description
                    (lit "Test Description")
                    (BugForm.handleChange BugForm.Title (lit "Test Bug")
                       BugForm.useState_initial)))) as [_ [Ha [Hb _]]].
    split; [exact Ha | exact Hb].
Defined.

(** C7.  With [loading] true the submit control is disabled and labelled
    ['Submitting...'], and a click on it reaches no handler: the state is
    unchanged and the submission operation is not called. *)
Theorem loading_disables_submission (p : BugForm.Props) (s : BugForm.FormState) :
  BugForm.loading p = true ->
  BugForm.disabled (BugForm.submit_button p) = true
  /\ BugForm.label (BugForm.submit_button p) = lit "Submitting..."
  /\ BugForm.click_submit p s = (s, [])
  /\ BugForm.submissions (snd (BugForm.click_submit p s)) = [].
Proof.
  intros H. unfold BugForm.click_submit, BugForm.submit_button.
  rewrite H. simpl. repeat split.
Qed.

Lemma loading_disables_submission_witness :
  let p := BugForm.mkProps true VNull in
  let s := BugForm.handleChange BugForm.Description (lit "Test Description")
             (BugForm.handleChange BugForm.Title (lit "Test Bug")
                BugForm.useState_initial) in
  BugForm.disabled (BugForm.submit_button p) = true
  /\ BugForm.label (BugForm.submit_button p) = lit "Submitting..."
  /\ BugForm.click_submit p s = (s, [])
  /\ BugForm.submissions (snd (BugForm.click_submit p s)) = [].
Proof.
  cbv zeta.
  apply (loading_disables_submission (BugForm.mkProps true VNull)).
  reflexivity.
Defined.

(** Without [loading] the same click submits the draft. *)
Lemma click_submits_when_idle :
  let p := BugForm.mkProps false VNull in
  let s := BugForm.handleChange BugForm.Description (lit "Test Description")
             (BugForm.handleChange BugForm.Title (lit "Test Bug")
                BugForm.useState_initial) in
  List.length (BugForm.submissions (snd (BugForm.click_submit p s))) = 1%nat.
Proof. reflexivity. Qed.

(** ** App *)

(** C8.  Each of the four handlers, started in any state with nothing in
    flight, runs up to its network call and waits there with its busy
    flag set and the record set untouched.  When the call settles, in
    whatever state the view is by then, the handler always ends with its
    busy flag cleared; after a rejection the record set is the one it
    found, and the stored error is the message carried by the failure
    or else the handler's generic one. *)
Theorem handlers_busy_until_settled (h : App.Handler) (s : App.State) :
  exists (t : App.Task) (s1 : App.State),
    App.exec (App.body h) (App.idle s)
    = (App.Suspended, App.mkWorld s1 [t] [])
    /\ App.busy h s1 = true
    /\ App.bugs s1 = App.bugs s
    /\ forall (w : App.World) (o : App.Settled),
         let r := App.exec (App.resume t o) w in
         App.busy h (App.app (snd r)) = false
         /\ match o with
            | App.Resolved _ => fst r = App.Finished
            | App.Rejected err =>
                App.bugs (App.app (snd r)) = App.bugs (App.app w)
                /\ match err with
                   | VUndefined | VNull => True
                   | _ =>
                       fst r = App.Finished
                       /\ App.stored_error h (App.app (snd r))
                          = App.readable_message h err
                   end
            end.
Proof.
  destruct h as [|bug resetForm|id|bugs_seen id status];
    (eexists; eexists; split; [reflexivity|];
     split; [reflexivity|]; split; [reflexivity|];
     intros w [data|err]; cbv zeta;
     [ split; reflexivity
     | destruct err; repeat split ]).
Qed.

(** A failed fetch: the record set is kept, the message of the server is
    shown, the busy flag is down. *)
Lemma fetchBugs_failure_example :
  let b := mkBug (lit "1") (lit "Bug 1") (lit "Description 1") (lit "open") 0 0 in
  let s := App.mkState [b] false (VString empty) false (VString empty) in
  let err := VObject [(lit "response",
               VObject [(lit "data",
                 VObject [(lit "message",
                   VString (lit "Internal Server Error"))])])] in
  match App.exec App.fetchBugs (App.idle s) with
  | (App.Suspended, w) =>
      App.loading (App.app w) = true
      /\ match App.settle 0 (App.Rejected err) w with
         | Some (st, w') =>
             st = App.Finished
             /\ App.app w'
                = App.mkState [b] false
                    (VString (lit "Internal Server Error"))
                    false (VString empty)
             /\ App.pending w' = []
         | None => False
         end
  | _ => False
  end.
Proof. cbv zeta. simpl. repeat split. Qed.

(** A successful creation calls the reset function once and starts a
    fetch that it does not wait for. *)
Lemma handleCreateBug_success_example :
  let bug := BugForm.mkForm (lit "Test Bug") (lit "Test Description")
               (lit "open") in
  let reset : BugForm.Reset := fun s' => BugForm.setForm BugForm.initialState s' in
  match App.exec (App.handleCreateBug bug reset)
                 (App.idle App.useState_initial) with
  | (App.Suspended, w) =>
      match App.settle 0 (App.Resolved []) w with
      | Some (st, w') =>
          st = App.Finished
          /\ App.formLoading (App.app w') = false
          /\ App.loading (App.app w') = true
          /\ App.invoked w' = [reset]
          /\ map App.request (App.pending w') = [App.Get]
      | None => False
      end
  | _ => False
  end.
Proof. cbv zeta. simpl. repeat split. Qed.

(** A fulfilled fetch replaces the record set by the answer. *)
Lemma fetchBugs_success (s : App.State) (data : list Bug) :
  match App.exec App.fetchBugs (App.idle s) with
  | (App.Suspended, w) =>
      match App.settle 0 (App.Resolved data) w with
      | Some (st, w') =>
          st = App.Finished
          /\ App.app w'
             = App.mkState data false (VString empty)
                 (App.formLoading s) (App.formError s)
      | None => False
      end
  | _ => False
  end.
Proof. simpl. split; reflexivity. Qed.

(** A fulfilled deletion drops the records with that identifier from the
    record set as it is when the call settles. *)
Lemma handleDeleteBug_success (s : App.State) (id : jsstring) (w : App.World) :
  match App.exec (App.handleDeleteBug id) (App.idle s) with
  | (App.Suspended, w0) =>
      match App.pending w0 with
      | [t] =>
          App.request t = App.Delete id
          /\ App.bugs (App.app (snd (App.exec (App.resume t (App.Resolved [])) w)))
             = filter (fun b => negb (str_eqb (_id b) id)) (App.bugs (App.app w))
      | _ => False
      end
  | _ => False
  end.
Proof. simpl. split; reflexivity. Qed.

(** ** The schema and the controller *)

Section StoreFacts.

Import Model Controller.

Lemma existsb_str_eqb_In (s : jsstring) (l : list jsstring) :
  existsb (str_eqb s) l = true -> In s l.
Proof.
  intros H. apply existsb_exists in H as [x [Hin Heq]].
  apply str_eqb_eq in Heq. now subst x.
Qed.












(** *** Sorting *)

Lemma insert_desc_perm (d : Doc) (l : list Doc) :
  Permutation (d :: l) (insert_desc d l).
Proof.
  induction l as [|x rest IH]; simpl.
  - apply Permutation_refl.
  - destruct (createdAt x <? createdAt d)%Z.
    + apply Permutation_refl.
    + eapply perm_trans; [apply perm_swap|]. now apply perm_skip.
Qed.

Lemma sort_perm (l : list Doc) : Permutation l (sort_createdAt_desc l).
Proof.
  induction l as [|d rest IH]; simpl.
  - constructor.
  - eapply perm_trans; [|apply insert_desc_perm]. now apply perm_skip.
Qed.

Lemma insert_desc_sorted (d : Doc) (l : list Doc) :
  StronglySorted newest_first l -> StronglySorted newest_first (insert_desc d l).
Proof.
  intros Hl. induction Hl as [|x rest Hrest IH Hx]; simpl.
  - constructor; constructor.
  - destruct (createdAt x <? createdAt d)%Z eqn:E.
    + apply Z.ltb_lt in E. constructor.
      * now constructor.
      * constructor.
        -- unfold newest_first; lia.
        -- eapply Forall_impl; [|exact Hx].
           unfold newest_first; intros y Hy; lia.
    + apply Z.ltb_ge in E. constructor; [exact IH|].
      eapply Permutation_Forall; [apply insert_desc_perm|].
      constructor; [exact E | exact Hx].
Qed.

Lemma sort_sorted (l : list Doc) :
  StronglySorted newest_first (sort_createdAt_desc l).
Proof.
  induction l as [|d rest IH]; simpl.
  - constructor.
  - now apply insert_desc_sorted.
Qed.

End StoreFacts.




(** The schema at work on the bodies of the tests. *)
Lemma schema_examples :
  let padded := Model.mkFields (Model.Text (lit "  Test Title  "))
                  (Model.Text (lit "  Test Description  ")) Model.Absent in
  let stored := Model.mkFields (Model.Text (lit "Test Title"))
                  (Model.Text (lit "Test Description"))
                  (Model.Text (lit "open")) in
  let d := Model.mkDoc 1 stored 10 10 in
  Controller.createBug padded 1 10 [] = ([d], Controller.Created d)
  /\ snd (Controller.createBug
            (Model.mkFields (Model.Text (lit "   ")) (Model.Text (lit "Test"))
               Model.Absent)
            1 10 []) = Controller.NextErr
  /\ snd (Controller.createBug
            (Model.mkFields Model.Absent (Model.Text (lit "Only description"))
               Model.Absent)
            1 10 []) = Controller.NextErr
  /\ snd (Controller.createBug
            (Model.mkFields (Model.Text (lit "Test")) (Model.Text (lit "Test"))
               (Model.Text (lit "invalid"))) 1 10 []) = Controller.NextErr
  /\ snd (Controller.createBug
            (Model.mkFields (Model.Text (repeat 97%N 101))
               (Model.Text (lit "Test")) Model.Absent)
            1 10 []) = Controller.NextErr
  /\ snd (Controller.createBug
            (Model.mkFields Model.Null (Model.Text (lit "Test")) Model.Absent)
            1 10 []) = Controller.NextErr
  /\ snd (Controller.updateBug (Controller.ObjectId 1)
            (Model.mkFields (Model.Text (lit "Test")) (Model.Text (lit "Test"))
               (Model.Text (lit "invalid-status"))) 20 [d])
     = Controller.NextErr
  /\ Controller.updateBug (Controller.ObjectId 1)
       (Model.mkFields Model.Absent Model.Absent (Model.Text (lit "resolved")))
       20 [d]
     = ([Model.mkDoc 1 (Model.mkFields (Model.Text (lit "Test Title"))
                          (Model.Text (lit "Test Description"))
                          (Model.Text (lit "resolved"))) 10 20],
        Controller.JsonDoc
          (Model.mkDoc 1 (Model.mkFields (Model.Text (lit "Test Title"))
                            (Model.Text (lit "Test Description"))
                            (Model.Text (lit "resolved"))) 10 20))
  /\ snd (Controller.updateBug (Controller.ObjectId 2)
            (Model.mkFields (Model.Text (lit "Test")) (Model.Text (lit "Test"))
               Model.Absent)
            20 [d]) = Controller.NotFound
  /\ snd (Controller.getBug Controller.Malformed [d]) = Controller.NextErr.
Proof. cbv zeta. repeat split; vm_compute; reflexivity. Qed.

(** C10.  For every collection, the list operation answers with all the
    stored records, each exactly as often as it is stored, ordered so that
    no record is followed by one created later; the collection itself is
    not changed. *)
Theorem getBugs_newest_first (s : Controller.Store) :
  exists l : list Model.Doc,
    Controller.getBugs s = (s, Controller.Json l)
    /\ Permutation s l
    /\ StronglySorted Controller.newest_first l.
Proof.
  exists (Controller.sort_createdAt_desc s). split; [reflexivity|].
  split; [apply sort_perm | apply sort_sorted].
Qed.

Lemma getBugs_example :
  let f := Model.mkFields (Model.Text (lit "Bug"))
             (Model.Text (lit "Description")) (Model.Text (lit "open")) in
  snd (Controller.getBugs
         [Model.mkDoc 1 f 10 10; Model.mkDoc 2 f 30 30; Model.mkDoc 3 f 20 25])
  = Controller.Json
      [Model.mkDoc 2 f 30 30; Model.mkDoc 3 f 20 25; Model.mkDoc 1 f 10 10].
Proof. reflexivity. Qed.

(* ===================================================================== *)
(** * Further properties of the code                                      *)
(* ===================================================================== *)

(** ** White space and [trim] *)

Lemma trimStart_nil_iff (s : jsstring) :
  trimStart s = [] <-> forallb is_white_space s = true.
Proof.
  induction s as [|c s IH]; simpl.
  - split; reflexivity.
  - destruct (is_white_space c); simpl; [exact IH|].
    split; discriminate.
Qed.

Lemma forallb_rev (f : N -> bool) (s : jsstring) :
  forallb f (rev s) = forallb f s.
Proof.
  induction s as [|c s IH]; simpl; [reflexivity|].
  rewrite forallb_app, IH. simpl. rewrite andb_true_r. apply andb_comm.
Qed.

Lemma trim_nil_iff (s : jsstring) :
  trim s = [] <-> forallb is_white_space s = true.
Proof.
  split; [|apply trim_blank].
  unfold trim, trimEnd. intros H.
  assert (E : trimStart (rev (trimStart s)) = []).
  { destruct (trimStart (rev (trimStart s))) as [|n l]; [reflexivity|].
    simpl in H. apply app_eq_nil in H as [_ H]. discriminate. }
  apply trimStart_nil_iff in E. rewrite forallb_rev in E.
  apply trimStart_nil_iff in E.
  pose proof (trimStart_head s) as Hh.
  destruct (trimStart s) as [|c r] eqn:Es.
  - now apply trimStart_nil_iff.
  - rewrite trimStart_fixed in E by exact Hh. discriminate.
Qed.

(** ** BugForm, continued *)

(** [handleSubmit] calls the submission operation exactly when neither
    the title nor the description consists of white space only (the
    empty string included); otherwise it calls nothing. *)
Theorem handleSubmit_submits_iff_not_blank (s : BugForm.FormState) :
  BugForm.submissions (snd (BugForm.handleSubmit s)) = []
  <-> (forallb is_white_space (BugForm.title (BugForm.form s)) = true
       \/ forallb is_white_space (BugForm.description (BugForm.form s)) = true).
Proof.
  rewrite <- !trim_nil_iff. unfold BugForm.handleSubmit.
  destruct (trim (BugForm.title (BugForm.form s))) as [|a ta];
    destruct (trim (BugForm.description (BugForm.form s))) as [|b tb];
    simpl; split; intros H; auto; try discriminate.
  destruct H; discriminate.
Qed.

(** An edit stores the value exactly as typed in the named field, leaves
    the two other fields and the focus as they were and clears the
    validation error, also the one a rejected submit has just set. *)
Theorem handleChange_after_submit
  (name : BugForm.FieldName) (v : jsstring) (s : BugForm.FormState) :
  let s' := BugForm.handleChange name v (fst (BugForm.handleSubmit s)) in
  BugForm.formError s' = empty
  /\ BugForm.focus s' = BugForm.focus s
  /\ match name with
     | BugForm.Title =>
         BugForm.form s'
         = BugForm.mkForm v (BugForm.description (BugForm.form s))
                          (BugForm.status (BugForm.form s))
     | BugForm.Description =>
         BugForm.form s'
         = BugForm.mkForm (BugForm.title (BugForm.form s)) v
                          (BugForm.status (BugForm.form s))
     | BugForm.Status =>
         BugForm.form s'
         = BugForm.mkForm (BugForm.title (BugForm.form s))
                          (BugForm.description (BugForm.form s)) v
     end.
Proof.
  cbv zeta. unfold BugForm.handleSubmit.
  destruct (BugForm.not_str (trim (BugForm.title (BugForm.form s)))
            || BugForm.not_str (trim (BugForm.description (BugForm.form s))));
    destruct name; repeat split.
Qed.

(** A click on the submit control reaches the submission operation
    exactly when the form is not loading and both fields hold something
    other than white space. *)
Theorem click_submit_submits_iff (p : BugForm.Props) (s : BugForm.FormState) :
  BugForm.submissions (snd (BugForm.click_submit p s)) <> []
  <-> (BugForm.loading p = false
       /\ trim (BugForm.title (BugForm.form s)) <> []
       /\ trim (BugForm.description (BugForm.form s)) <> []).
Proof.
  unfold BugForm.click_submit, BugForm.submit_button, BugForm.value_missing.
  cbn [BugForm.disabled].
  destruct (BugForm.loading p); [simpl; split; [congruence | intros [H _]; discriminate]|].
  destruct (BugForm.title (BugForm.form s)) as [|a ta] eqn:Et.
  { simpl. split; [congruence|]. intros [_ [H _]]. exfalso. now apply H. }
  destruct (BugForm.description (BugForm.form s)) as [|b tb] eqn:Ed.
  { simpl. split; [congruence|]. intros [_ [_ H]]. exfalso. now apply H. }
  unfold BugForm.handleSubmit. rewrite Et, Ed.
  destruct (trim (a :: ta)) as [|a' ta']; destruct (trim (b :: tb)) as [|b' tb'];
    simpl; split; try congruence; try (intros [_ [H1 H2]]; congruence).
  - intros _. repeat split; discriminate.
Qed.

(** ** BugList, BugItem and StatusUpdate *)

Lemma items_determined (items : list BugListView.ItemElement) (l : list Bug) :
  map BugListView.bug items = l ->
  map BugListView.key items = map _id l ->
  items = map (fun b => BugListView.mkItem (_id b) b) l.
Proof.
  revert l; induction items as [|[k b] items IH]; intros [|b' l]; simpl;
    try discriminate; auto.
  intros Hb Hk. injection Hb as Hb0 Hb. injection Hk as Hk0 Hk.
  subst b' k. f_equal. now apply IH.
Qed.

(** [BugList] shows the items exactly when it is not loading, there is no
    error and the record set is not empty, and then there is one item per
    record, in the order of the set, keyed by the record's identifier; it
    shows the empty-state message exactly when it is not loading, there is
    no error and the set is empty. *)
Theorem BugList_items_iff (p : BugListView.Props) :
  (forall items,
      BugListView.BugList p = BugListView.ListView items
      <-> (BugListView.loading p = false
           /\ truthy (BugListView.error p) = false
           /\ BugListView.bugs p <> []
           /\ map BugListView.bug items = BugListView.bugs p
           /\ map BugListView.key items = map _id (BugListView.bugs p)))
  /\ (BugListView.BugList p = BugListView.EmptyView
      <-> (BugListView.loading p = false
           /\ truthy (BugListView.error p) = false
           /\ BugListView.bugs p = [])).
Proof.
  unfold BugListView.BugList.
  destruct (BugListView.loading p); [split; [intros items|]; split;
    [discriminate | intros [H _]; discriminate
    | discriminate | intros [H _]; discriminate]|].
  destruct (truthy (BugListView.error p)); [split; [intros items|]; split;
    [discriminate | intros [_ [H _]]; discriminate
    | discriminate | intros [_ [H _]]; discriminate]|].
  destruct (BugListView.bugs p) as [|b l]; simpl.
  - split; [intros items|]; split; try discriminate; auto.
    intros [_ [_ [H _]]]. congruence.
  - split; [intros items|]; split; try discriminate.
    + intros H. injection H as H. subst items.
      repeat split; try discriminate; simpl; f_equal;
        rewrite map_map; simpl; try apply map_id; reflexivity.
    + intros [_ [_ [_ [Hb Hk]]]]. f_equal.
      symmetry. apply (items_determined items (b :: l) Hb Hk).
    + intros [_ [_ H]]. discriminate.
Qed.







(** ** The handlers of App, continued *)

Lemma str_eqb_false (a b : jsstring) : str_eqb a b = false <-> a <> b.
Proof.
  split.
  - intros H E. subst b. rewrite str_eqb_refl in H. discriminate.
  - intros H. destruct (str_eqb a b) eqn:E; [|reflexivity].
    apply str_eqb_eq in E. contradiction.
Qed.

(** When the deletion call is fulfilled, the record set loses exactly the
    records with that identifier: every other record of the set, as it is
    at that moment, stays, in the same order, and nothing else of the
    list channel but the busy flag changes. *)
Theorem handleDeleteBug_removes_exactly (id : jsstring) (s : App.State) :
  exists (t : App.Task) (s1 : App.State),
    App.exec (App.handleDeleteBug id) (App.idle s)
    = (App.Suspended, App.mkWorld s1 [t] [])
    /\ App.request t = App.Delete id
    /\ forall (w : App.World) (data : list Bug),
         let s' := App.app (snd (App.exec (App.resume t (App.Resolved data)) w)) in
         (forall b, In b (App.bugs s')
                    <-> (In b (App.bugs (App.app w)) /\ _id b <> id))
         /\ App.bugs s'
            = filter (fun b => negb (str_eqb (_id b) id)) (App.bugs (App.app w))
         /\ App.error s' = App.error (App.app w)
         /\ App.loading s' = false.
Proof.
  eexists; eexists. split; [reflexivity|]. split; [reflexivity|].
  intros w data. cbv zeta. cbn. split; [|repeat split].
  intros b. rewrite filter_In, negb_true_iff, str_eqb_false. reflexivity.
Qed.

Lemma find_bug_id (id : jsstring) (l : list Bug) (b : Bug) :
  App.find_bug id l = Some b -> In b l /\ _id b = id.
Proof.
  unfold App.find_bug. intros H. apply find_some in H as [Hin He].
  split; [exact Hin | now apply str_eqb_eq].
Qed.

(** The status change sends the record the handler's render knew under
    that identifier (none when there is no such record) with the new
    status; when the call is fulfilled, the record set keeps its records
    in place, those with that identifier carry the new status and are
    otherwise unchanged, and every other record is untouched. *)
Theorem handleStatusChange_updates_in_place
  (bugs_seen : list Bug) (id st : jsstring) (s : App.State) :
  exists (t : App.Task) (s1 : App.State),
    App.exec (App.handleStatusChange bugs_seen id st) (App.idle s)
    = (App.Suspended, App.mkWorld s1 [t] [])
    /\ App.request t = App.Put id (App.find_bug id bugs_seen) st
    /\ match App.find_bug id bugs_seen with
       | Some b => In b bugs_seen /\ _id b = id
       | None => forall b, In b bugs_seen -> _id b <> id
       end
    /\ forall (w : App.World) (data : list Bug),
         let s' := App.app (snd (App.exec (App.resume t (App.Resolved data)) w)) in
         let old := App.bugs (App.app w) in
         map _id (App.bugs s') = map _id old
         /\ map title (App.bugs s') = map title old
         /\ map description (App.bugs s') = map description old
         /\ map createdAt (App.bugs s') = map createdAt old
         /\ map updatedAt (App.bugs s') = map updatedAt old
         /\ map status (App.bugs s')
            = map (fun b => if str_eqb (_id b) id then st else status b) old
         /\ App.loading s' = false.
Proof.
  eexists; eexists. split; [reflexivity|]. split; [reflexivity|]. split.
  - destruct (App.find_bug id bugs_seen) as [b|] eqn:E.
    + now apply find_bug_id.
    + intros b Hin He. unfold App.find_bug in E.
      apply (find_none _ _ E) in Hin. rewrite He, str_eqb_refl in Hin.
      discriminate.
  - intros w data. cbv zeta. cbn.
    repeat split; rewrite map_map; apply map_ext; intros b;
      destruct (str_eqb (_id b) id); reflexivity.
Qed.

(** A fulfilled creation calls the form's reset function once and starts
    a fetch, whose busy flag is up, without touching the record set; a
    rejected one (with an error object) calls nothing, starts nothing and
    leaves the record set and the list channel as they were, storing only
    its message in the form channel. *)
Theorem handleCreateBug_settles
  (bug : BugForm.Form) (resetForm : BugForm.Reset) (s : App.State) :
  exists (t : App.Task) (s1 : App.State),
    App.exec (App.handleCreateBug bug resetForm) (App.idle s)
    = (App.Suspended, App.mkWorld s1 [t] [])
    /\ App.request t = App.Post bug
    /\ forall (w : App.World) (o : App.Settled),
         let r := snd (App.exec (App.resume t o) w) in
         App.bugs (App.app r) = App.bugs (App.app w)
         /\ App.formLoading (App.app r) = false
         /\ match o with
            | App.Resolved _ =>
                App.invoked r = App.invoked w ++ [resetForm]
                /\ map App.request (App.pending r)
                   = map App.request (App.pending w) ++ [App.Get]
                /\ App.loading (App.app r) = true
                /\ App.formError (App.app r) = App.formError (App.app w)
            | App.Rejected err =>
                App.invoked r = App.invoked w
                /\ App.pending r = App.pending w
                /\ App.loading (App.app r) = App.loading (App.app w)
                /\ App.error (App.app r) = App.error (App.app w)
            end.
Proof.
  eexists; eexists. split; [reflexivity|]. split; [reflexivity|].
  intros w [data|err]; cbv zeta.
  - cbn. rewrite map_app. repeat split.
  - destruct err; cbn; repeat split.
Qed.

(** Every handler clears the error of its own channel when it starts,
    and the three list handlers never write to the form channel, neither
    when they start nor when their call settles, however it settles. *)
Theorem handlers_keep_to_their_channel (h : App.Handler) (s : App.State) :
  exists (t : App.Task) (s1 : App.State),
    App.exec (App.body h) (App.idle s)
    = (App.Suspended, App.mkWorld s1 [t] [])
    /\ App.stored_error h s1 = VString empty
    /\ match h with
       | App.HandleCreateBug _ _ =>
           App.loading s1 = App.loading s /\ App.error s1 = App.error s
       | _ =>
           App.formLoading s1 = App.formLoading s
           /\ App.formError s1 = App.formError s
           /\ forall (w : App.World) (o : App.Settled),
                let s' := App.app (snd (App.exec (App.resume t o) w)) in
                App.formLoading s' = App.formLoading (App.app w)
                /\ App.formError s' = App.formError (App.app w)
                /\ App.invoked (snd (App.exec (App.resume t o) w))
                   = App.invoked w
       end.
Proof.
  destruct h as [|bug resetForm|id|bugs_seen id st];
    (eexists; eexists; split; [reflexivity|]; split; [reflexivity|]);
    try (split; reflexivity);
    (split; [reflexivity|]; split; [reflexivity|];
     intros w [data|err]; cbv zeta; [|destruct err]; cbn; repeat split).
Qed.

(** ** What App shows while and after a call *)

Lemma readable_message_truthy (h : App.Handler) (err : value) :
  truthy (App.readable_message h err) = true.
Proof.
  unfold App.readable_message, or_else.
  destruct (truthy (opt_get (opt_get (opt_get err (lit "response"))
                                     (lit "data")) (lit "message"))) eqn:E.
  - exact E.
  - destruct h; reflexivity.
Qed.

Lemma start_keeps_flags_up (h : App.Handler) (w : App.World) :
  let w' := snd (App.exec (App.body h) w) in
  (App.loading (App.app w) = true -> App.loading (App.app w') = true)
  /\ (App.formLoading (App.app w) = true
      -> App.formLoading (App.app w') = true).
Proof.
  destruct h; cbv zeta; cbn; split; auto.
Qed.

Lemma starts_keep_flags_up (hs : list App.Handler) (w : App.World) :
  let w' := fold_left (fun w0 h => snd (App.exec (App.body h) w0)) hs w in
  (App.loading (App.app w) = true -> App.loading (App.app w') = true)
  /\ (App.formLoading (App.app w) = true
      -> App.formLoading (App.app w') = true).
Proof.
  revert w; induction hs as [|h hs IH]; intros w; cbv zeta; simpl.
  - split; auto.
  - destruct (start_keeps_flags_up h w) as [H1 H2].
    destruct (IH (snd (App.exec (App.body h) w))) as [H3 H4].
    split; auto.
Qed.

(** When a handler issues its call, in whatever state and with whatever
    calls already in flight, it suspends with one more call awaited, and
    from then on, however many further handlers are started, as long as
    no call settles: after a list handler the list shows the loading
    view, whatever the record set and the error; after a creation the
    submit control is disabled and a click on it submits nothing.  (Once
    a call settles this may end although other calls are still awaited,
    the busy flags being shared.) *)
Theorem call_issued_blocks_the_view
  (h : App.Handler) (w : App.World) (hs : list App.Handler) :
  let w1 := snd (App.exec (App.body h) w) in
  let w2 := fold_left (fun w0 h' => snd (App.exec (App.body h') w0)) hs w1 in
  fst (App.exec (App.body h) w) = App.Suspended
  /\ List.length (App.pending w1) = S (List.length (App.pending w))
  /\ match h with
     | App.HandleCreateBug _ _ =>
         BugForm.disabled
           (BugForm.submit_button (AppView.form_props (App.app w2))) = true
         /\ forall fs : BugForm.FormState,
              BugForm.click_submit (AppView.form_props (App.app w2)) fs
              = (fs, [])
     | _ =>
         BugListView.BugList (AppView.list_props (App.app w2))
         = BugListView.LoadingView
     end.
Proof.
  cbv zeta.
  destruct (starts_keep_flags_up hs (snd (App.exec (App.body h) w)))
    as [Hl Hf].
  split; [destruct h; reflexivity|].
  split; [destruct h; cbn; rewrite length_app; simpl; lia|].
  destruct h as [|bug resetForm|id|bugs_seen id st].
  - unfold BugListView.BugList, AppView.list_props.
    cbn [BugListView.loading]. now rewrite (Hl eq_refl).
  - unfold BugForm.click_submit, BugForm.submit_button, AppView.form_props.
    cbn [BugForm.loading BugForm.disabled]. rewrite (Hf eq_refl).
    split; [reflexivity | intros fs; reflexivity].
  - unfold BugListView.BugList, AppView.list_props.
    cbn [BugListView.loading]. now rewrite (Hl eq_refl).
  - unfold BugListView.BugList, AppView.list_props.
    cbn [BugListView.loading]. now rewrite (Hl eq_refl).
Qed.

(** After a list handler's call is rejected with anything but [null] or
    [undefined], and whatever happened meanwhile, the list shows the error
    view with the failure's message or the handler's generic message, not
    the records; after a rejected creation the form receives that message
    as its [error] and the submit control is enabled again. *)
Theorem rejected_call_is_shown (h : App.Handler) (s : App.State) :
  exists (t : App.Task) (s1 : App.State),
    App.exec (App.body h) (App.idle s)
    = (App.Suspended, App.mkWorld s1 [t] [])
    /\ forall (w : App.World) (err : value),
         let s' := App.app (snd (App.exec (App.resume t (App.Rejected err)) w)) in
         match err with
         | VUndefined | VNull => True
         | _ =>
             match h with
             | App.HandleCreateBug _ _ =>
                 AppView.form_props s'
                 = BugForm.mkProps false (App.readable_message h err)
             | _ =>
                 BugListView.BugList (AppView.list_props s')
                 = BugListView.ErrorView (App.readable_message h err)
             end
         end.
Proof.
  destruct h as [|bug resetForm|id|bugs_seen id st];
    (eexists; eexists; split; [reflexivity|]);
    intros w err; cbv zeta; destruct err; try exact I;
    cbn -[or_else opt_get lit]; try reflexivity;
    unfold BugListView.BugList; cbn -[or_else opt_get lit];
    match goal with
    | |- context [truthy ?m] =>
        let T := fresh "T" in
        assert (T : truthy m = true)
          by first [ exact (readable_message_truthy App.FetchBugs _)
                   | exact (readable_message_truthy (App.HandleDeleteBug id) _)
                   | exact (readable_message_truthy
                              (App.HandleStatusChange bugs_seen id st) _) ];
        rewrite T
    end; reflexivity.
Qed.

(** The list handlers share one busy flag: when two of them are in
    flight and the call of the first settles, however it settles, the
    flag goes down although the call of the second is still awaited. *)
Theorem busy_flag_is_shared (h1 h2 : App.Handler) (s : App.State) (o : App.Settled) :
  match h1, h2 with
  | App.HandleCreateBug _ _, _ | _, App.HandleCreateBug _ _ => True
  | _, _ =>
      let w1 := snd (App.exec (App.body h1) (App.idle s)) in
      let w2 := snd (App.exec (App.body h2) w1) in
      List.length (App.pending w2) = 2%nat
      /\ App.loading (App.app w2) = true
      /\ match App.settle 0 o w2 with
         | Some (_, w3) =>
             App.loading (App.app w3) = false
             /\ List.length (App.pending w3) = 1%nat
         | None => False
         end
  end.
Proof.
  destruct h1, h2; try exact I; cbv zeta;
    (split; [reflexivity|]; split; [reflexivity|]);
    (destruct o as [data|err]; [|destruct err]); cbn; split; reflexivity.
Qed.

(** ** ErrorBoundary, continued *)

(** However a mounted boundary is driven by re-renders and clicks, what
    is on screen agrees with its state: in the failed state the fallback
    made from the stored value, in the normal state the children exactly
    as they paint; no failure of the children ever leaves the boundary. *)
Theorem boundary_screen_matches_state
  (C R : Type) (draw : C -> ErrorBoundary.Drawn R)
  (c0 : C) (evs : list (ErrorBoundary.Event C)) :
  let m := ErrorBoundary.run draw (ErrorBoundary.mount draw c0) evs in
  match ErrorBoundary.screen m with
  | ErrorBoundary.ShowFallback f =>
      ErrorBoundary.hasError (ErrorBoundary.state (ErrorBoundary.instance m))
      = true
      /\ f = ErrorBoundary.fallback_of
               (ErrorBoundary.state (ErrorBoundary.instance m))
  | ErrorBoundary.ShowChildren r =>
      ErrorBoundary.hasError (ErrorBoundary.state (ErrorBoundary.instance m))
      = false
      /\ draw (ErrorBoundary.children_now m) = ErrorBoundary.Painted r
  | ErrorBoundary.Propagated _ => False
  end.
Proof.
  intros m.
  assert (Hc : ErrorBoundary.coherent draw m)
    by apply run_coherent, mount_coherent.
  unfold ErrorBoundary.coherent in Hc.
  destruct (ErrorBoundary.hasError
              (ErrorBoundary.state (ErrorBoundary.instance m))) eqn:Hs.
  - rewrite Hc. now split.
  - destruct Hc as [r [Hd Hr]]. rewrite Hr. now split.
Qed.

(** [render] in a failed state always has something to say: the text of
    the fallback is the [message] of the stored value when that is truthy
    and the generic sentence otherwise, so it is never empty; in the
    normal state [render] hands back the children untouched. *)
Theorem render_fallback_text
  (C : Type) (s : ErrorBoundary.State) (c : C) :
  match ErrorBoundary.render s c with
  | ErrorBoundary.FallbackElement f =>
      ErrorBoundary.hasError s = true
      /\ truthy (ErrorBoundary.message f) = true
      /\ ErrorBoundary.message f
         = (if truthy (opt_get (ErrorBoundary.error s) (lit "message"))
            then opt_get (ErrorBoundary.error s) (lit "message")
            else VString (lit "An unexpected error occurred."))
      /\ ErrorBoundary.heading f = lit "Something went wrong."
      /\ ErrorBoundary.button_label f = lit "Try Again"
  | ErrorBoundary.ChildrenElement c' =>
      ErrorBoundary.hasError s = false /\ c' = c
  end.
Proof.
  unfold ErrorBoundary.render.
  destruct (ErrorBoundary.hasError s); [|now split].
  cbn [ErrorBoundary.message ErrorBoundary.heading ErrorBoundary.button_label].
  unfold or_else.
  destruct (truthy (opt_get (ErrorBoundary.error s) (lit "message"))) eqn:E;
    repeat split; auto.
Qed.

(** ** The controller, continued *)

Section MoreStoreFacts.

Import Model Controller.

Lemma findById_id (id : nat) (s : Store) (d : Doc) :
  findById id s = Some d -> In d s /\ _id d = id.
Proof.
  unfold findById. intros H. apply find_some in H as [Hin He].
  split; [exact Hin | now apply Nat.eqb_eq].
Qed.

Lemma findById_None_iff (id : nat) (s : Store) :
  findById id s = None <-> ~ In id (map _id s).
Proof.
  unfold findById. induction s as [|d s IH]; simpl.
  - split; auto.
  - destruct (_id d =? id)%nat eqn:E.
    + apply Nat.eqb_eq in E. split; [discriminate|]. intros H.
      exfalso. apply H. now left.
    + apply Nat.eqb_neq in E. rewrite IH. split.
      * intros H [H1|H1]; auto.
      * intros H H1. apply H. now right.
Qed.

Lemma findById_snoc (id : nat) (s : Store) (d : Doc) :
  findById id (s ++ [d])
  = match findById id s with
    | Some x => Some x
    | None => if (_id d =? id)%nat then Some d else None
    end.
Proof.
  unfold findById. induction s as [|x s IH]; simpl; [reflexivity|].
  destruct (_id x =? id)%nat; auto.
Qed.

Lemma replace_ids (id : nat) (f : Doc -> Doc) (s : Store) :
  (forall d, _id (f d) = _id d) ->
  map _id (replace id f s) = map _id s.
Proof.
  intros Hf. induction s as [|d s IH]; simpl; [reflexivity|].
  destruct (_id d =? id)%nat; simpl; [now rewrite Hf | now rewrite IH].
Qed.

Lemma findById_replace (id id' : nat) (f : Doc -> Doc) (s : Store) :
  (forall d, _id (f d) = _id d) ->
  findById id' (replace id f s)
  = if (id' =? id)%nat then option_map f (findById id s) else findById id' s.
Proof.
  intros Hf. unfold findById. induction s as [|d s IH]; simpl.
  - now destruct (id' =? id)%nat.
  - destruct (_id d =? id)%nat eqn:E; simpl.
    + rewrite Hf. apply Nat.eqb_eq in E.
      destruct (id' =? id)%nat eqn:E'.
      * apply Nat.eqb_eq in E'. subst id'. rewrite E, Nat.eqb_refl.
        reflexivity.
      * apply Nat.eqb_neq in E'. rewrite E.
        destruct (id =? id')%nat eqn:E2; [|reflexivity].
        apply Nat.eqb_eq in E2. congruence.
    + destruct (_id d =? id')%nat eqn:E2.
      * apply Nat.eqb_eq in E2. destruct (id' =? id)%nat eqn:E'; [|reflexivity].
        apply Nat.eqb_eq in E'. apply Nat.eqb_neq in E. congruence.
      * exact IH.
Qed.

Lemma remove_ids_incl (id x : nat) (s : Store) :
  In x (map _id (remove id s)) -> In x (map _id s).
Proof.
  induction s as [|d s IH]; simpl; auto.
  destruct (_id d =? id)%nat; simpl; intuition.
Qed.

Lemma remove_NoDup (id : nat) (s : Store) :
  NoDup (map _id s) -> NoDup (map _id (remove id s)).
Proof.
  induction s as [|d s IH]; simpl; intros H; [constructor|].
  inversion H as [|x l Hx Hl]; subst.
  destruct (_id d =? id)%nat; simpl; [exact Hl|].
  constructor; [|now apply IH].
  intros Hin. apply Hx. now apply remove_ids_incl in Hin.
Qed.

Lemma findById_remove (id id' : nat) (s : Store) :
  NoDup (map _id s) ->
  findById id' (remove id s)
  = if (id' =? id)%nat then None else findById id' s.
Proof.
  induction s as [|d s IH]; intros H.
  - simpl. now destruct (id' =? id)%nat.
  - inversion H as [|x l Hx Hl]; subst. specialize (IH Hl).
    change (findById id' (d :: s))
      with (if (_id d =? id')%nat then Some d else findById id' s).
    simpl remove. destruct (_id d =? id)%nat eqn:E.
    + apply Nat.eqb_eq in E. destruct (id' =? id)%nat eqn:E'.
      * apply Nat.eqb_eq in E'. subst id'. apply findById_None_iff.
        now rewrite <- E.
      * apply Nat.eqb_neq in E'.
        destruct (_id d =? id')%nat eqn:E2; [|reflexivity].
        apply Nat.eqb_eq in E2. congruence.
    + change (findById id' (d :: remove id s))
        with (if (_id d =? id')%nat then Some d
              else findById id' (remove id s)).
      destruct (_id d =? id')%nat eqn:E2; [|exact IH].
      apply Nat.eqb_eq in E2. destruct (id' =? id)%nat eqn:E'; [|reflexivity].
      apply Nat.eqb_eq in E'. apply Nat.eqb_neq in E. congruence.
Qed.

Lemma handle_NoDup (c : Call) (s : Store) :
  NoDup (map _id s) -> NoDup (map _id (fst (handle c s))).
Proof.
  intros H.
  destruct c as [|[id|]|body oid now|[id|] body now|[id|]]; simpl;
    try exact H.
  - now destruct (findById id s).
  - unfold createBug.
    destruct (validate bugSchema (new_Bug bugSchema body)); [|exact H].
    destruct (findById oid s) eqn:E; [exact H|]. simpl.
    rewrite map_app. simpl. apply NoDup_app.
    + exact H.
    + constructor; [easy|constructor].
    + intros x Hx [Hd|[]]. subst x.
      now apply findById_None_iff in E.
  - destruct (validate_update bugSchema (cast_update bugSchema body));
      [|exact H].
    destruct (findById id s); [|exact H]. simpl.
    rewrite replace_ids; [exact H | reflexivity].
  - destruct (findById id s); [|exact H]. simpl.
    now apply remove_NoDup.
Qed.

Lemma serve_NoDup (calls : list Call) (s : Store) :
  NoDup (map _id s) -> NoDup (map _id (serve calls s)).
Proof.
  revert s; induction calls as [|c calls IH]; intros s H; simpl; auto.
  apply IH. now apply handle_NoDup.
Qed.

End MoreStoreFacts.

Section ControllerProperties.

Import Model Controller.

Lemma existsb_str_eqb_iff (x : jsstring) (l : list jsstring) :
  existsb (str_eqb x) l = true <-> In x l.
Proof.
  split; [apply existsb_str_eqb_In|].
  intros H. apply existsb_exists. exists x. split; [exact H|].
  apply str_eqb_refl.
Qed.

Lemma validate_text_iff (n : nat) (x : jsstring) :
  validate_path (mkPath true true (Some n) None None) (Text x) = true
  <-> (x <> [] /\ (List.length x <= n)%nat).
Proof.
  unfold validate_path, check_cast, check_required, check_maxlength,
    check_enum.
  cbn [required maxlength enum andb]. rewrite andb_true_r.
  destruct x as [|c x].
  - cbn. split; [discriminate | intros [H _]; congruence].
  - cbn -[Nat.leb List.length]. rewrite Nat.leb_le.
    split; [intros H; split; [discriminate | exact H]
           | intros [_ H]; exact H].
Qed.

Lemma validate_status_iff (st : jsstring) :
  validate_path (path_status bugSchema) (Text st) = true <-> In st statuses.
Proof.
  unfold validate_path, check_cast, check_required, check_maxlength,
    check_enum.
  cbn [path_status bugSchema required maxlength enum].
  cbn [andb]. rewrite <- existsb_str_eqb_iff. reflexivity.
Qed.

Lemma validate_new_iff (body : Fields) :
  validate bugSchema (new_Bug bugSchema body) = true
  <-> Acceptance.acceptable body.
Proof.
  unfold validate, new_Bug, Acceptance.acceptable.
  cbn [title description status path_title path_description path_status
       bugSchema].
  rewrite !andb_true_iff.
  assert (Ht : forall n v,
             validate_path (mkPath true true (Some n) None None)
               (with_default (mkPath true true (Some n) None None)
                  (set_path (mkPath true true (Some n) None None) v)) = true
             <-> exists t, v = Text t /\ Js.trim t <> []
                           /\ (List.length (Js.trim t) <= n)%nat).
  { intros n [| |t|]; cbn [set_path with_default trim default];
      try (split; [discriminate | intros [t' [E _]]; discriminate]).
    rewrite validate_text_iff. split.
    - intros H. now exists t.
    - intros [t' [E H]]. now injection E as <-. }
  rewrite !Ht.
  assert (Hs : validate_path (path_status bugSchema)
                 (with_default (path_status bugSchema)
                    (set_path (path_status bugSchema) (status body))) = true
               <-> match status body with
                   | Text st => In st statuses
                   | Absent | Null => True
                   | Uncastable => False
                   end).
  { destruct (status body) as [| |st|].
    - split; [auto | intros _; reflexivity].
    - split; [auto | intros _; reflexivity].
    - apply validate_status_iff.
    - split; [discriminate | intros []]. }
  cbn [path_status bugSchema] in Hs. rewrite Hs. tauto.
Qed.

Lemma validate_update_iff (body : Fields) :
  validate_update bugSchema (cast_update bugSchema body) = true
  <-> Acceptance.updatable body.
Proof.
  unfold validate_update, cast_update, Acceptance.updatable.
  cbn [title description status path_title path_description bugSchema].
  rewrite !andb_true_iff.
  assert (Ht : forall n v,
             validate_set (mkPath true true (Some n) None None)
               (set_path (mkPath true true (Some n) None None) v) = true
             <-> match v with
                 | Text t => Js.trim t <> []
                             /\ (List.length (Js.trim t) <= n)%nat
                 | Absent => True
                 | Null | Uncastable => False
                 end).
  { intros n [| |t|]; cbn [set_path validate_set trim].
    - split; auto.
    - split; [discriminate | intros []].
    - apply validate_text_iff.
    - split; [discriminate | intros []]. }
  rewrite !Ht.
  assert (Hs : validate_set (path_status bugSchema)
                 (set_path (path_status bugSchema) (status body)) = true
               <-> match status body with
                   | Text st => In st statuses
                   | Absent | Null => True
                   | Uncastable => False
                   end).
  { destruct (status body) as [| |st|].
    - split; auto.
    - split; [auto | intros _; reflexivity].
    - apply validate_status_iff.
    - split; [discriminate | intros []]. }
  rewrite Hs. tauto.
Qed.

Lemma remove_length (id : nat) (s : Store) (d : Doc) :
  findById id s = Some d ->
  List.length s = S (List.length (remove id s)).
Proof.
  unfold findById.
  induction s as [|x s IH]; simpl; [discriminate|].
  destruct (_id x =? id)%nat; [reflexivity|].
  intros H. simpl. f_equal. now apply IH.
Qed.

End ControllerProperties.

(** After any sequence of calls on an empty collection no two stored
    records share an identifier. *)
Theorem store_ids_unique (calls : list Controller.Call) :
  NoDup (map Model._id (Controller.serve calls [])).
Proof. apply serve_NoDup. constructor. Qed.

(** With an identifier that is free, [createBug] stores a record
    exactly when the body is acceptable: title and description strings
    that are not blank once trimmed and within 100 and 1000 characters,
    status absent, [null] or one of the three.  Every other creation
    answers through [next(err)] and leaves the collection as it was. *)
Theorem createBug_accepts_iff
  (body : Model.Fields) (oid : nat) (now : Z) (s : Controller.Store) :
  Controller.findById oid s = None ->
  ((exists d, Controller.createBug body oid now s
              = (s ++ [d], Controller.Created d))
   <-> Acceptance.acceptable body)
  /\ (Controller.createBug body oid now s = (s, Controller.NextErr)
      <-> ~ Acceptance.acceptable body).
Proof.
  intros Hfree.
  pose proof (validate_new_iff body) as Hv. unfold Controller.createBug.
  rewrite Hfree.
  destruct (Model.validate Model.bugSchema
              (Model.new_Bug Model.bugSchema body)).
  - assert (Ha : Acceptance.acceptable body) by now apply Hv.
    split; split.
    + intros _. exact Ha.
    + intros _. eexists. reflexivity.
    + intros H. discriminate.
    + intros H. contradiction.
  - assert (Ha : ~ Acceptance.acceptable body).
    { intros H. apply Hv in H. discriminate. }
    split; split.
    + intros [d H]. discriminate.
    + intros H. contradiction.
    + intros _. exact Ha.
    + reflexivity.
Qed.

Lemma createBug_accepts_iff_witness :
  Controller.createBug
    (Model.mkFields (Model.Text (lit "   ")) (Model.Text (lit "Test"))
       Model.Null) 1 10 []
  = ([], Controller.NextErr).
Proof.
  apply (proj2 (proj2 (createBug_accepts_iff
                         (Model.mkFields (Model.Text (lit "   "))
                            (Model.Text (lit "Test")) Model.Null)
                         1 10 [] eq_refl))).
  intros [[t [E [H _]]] _]. injection E as <-. apply H. reflexivity.
Defined.

(** A created record carries the trimmed title and description of the
    body, the status of the body or ['open'] when the body has none, the
    generated identifier and the clock as both timestamps; it is appended
    to the collection, can be fetched at once under its identifier, and
    no other lookup changes. *)
Theorem createBug_then_getBug
  (body : Model.Fields) (oid : nat) (now : Z)
  (s s' : Controller.Store) (d : Model.Doc) :
  Controller.createBug body oid now s = (s', Controller.Created d) ->
  s' = s ++ [d]
  /\ (exists t de,
        Model.title body = Model.Text t
        /\ Model.description body = Model.Text de
        /\ d = Model.mkDoc oid
                 (Model.mkFields (Model.Text (trim t)) (Model.Text (trim de))
                    (match Model.status body with
                     | Model.Absent => Model.Text (lit "open")
                     | v => v
                     end))
                 now now)
  /\ Controller.getBug (Controller.ObjectId oid) s'
     = (s', Controller.JsonDoc d)
  /\ forall id', id' <> oid ->
       Controller.findById id' s' = Controller.findById id' s.
Proof.
  unfold Controller.createBug.
  destruct (Model.validate Model.bugSchema
              (Model.new_Bug Model.bugSchema body)) eqn:Hv; [|discriminate].
  destruct (Controller.findById oid s) eqn:E; [discriminate|].
  intros H. injection H as Hs Hd. rewrite Hd in Hs. subst s'.
  apply validate_new_iff in Hv.
  destruct Hv as [[t [Et _]] [[de [Ede _]] Hst]].
  assert (Ed : d = Model.mkDoc oid
                 (Model.mkFields (Model.Text (trim t)) (Model.Text (trim de))
                    (match Model.status body with
                     | Model.Absent => Model.Text (lit "open")
                     | v => v
                     end))
                 now now).
  { rewrite <- Hd. destruct body as [bt bd bs]. cbn in Et, Ede. subst bt bd.
    destruct bs; reflexivity. }
  assert (Hid : Model._id d = oid) by (rewrite Ed; reflexivity).
  split; [reflexivity|]. split; [now exists t, de|]. split.
  - unfold Controller.getBug. rewrite findById_snoc, E, Hid, Nat.eqb_refl.
    reflexivity.
  - intros id' Hne. rewrite findById_snoc, Hid.
    destruct (Controller.findById id' s); [reflexivity|].
    destruct (oid =? id')%nat eqn:E'; [|reflexivity].
    apply Nat.eqb_eq in E'. congruence.
Qed.

Lemma createBug_then_getBug_witness :
  let d := Model.mkDoc 7 (Model.mkFields (Model.Text (lit "Test Title"))
                            (Model.Text (lit "Test Description"))
                            (Model.Text (lit "open"))) 10 10 in
  Controller.getBug (Controller.ObjectId 7) [d] = ([d], Controller.JsonDoc d).
Proof.
  cbv zeta.
  exact (proj1 (proj2 (proj2
           (createBug_then_getBug
              (Model.mkFields (Model.Text (lit "  Test Title  "))
                 (Model.Text (lit "  Test Description  ")) Model.Absent)
              7 10 [] _ _ eq_refl)))).
Defined.

(** A deletion under a malformed identifier is answered through
    [next(err)] and changes nothing.  On a collection whose identifiers
    are distinct, a deletion under a well-formed identifier that finds
    the record removes it for good: it can no longer be fetched, every
    other record is found as before and the collection is one record
    shorter; one that finds nothing answers not-found and changes
    nothing. *)
Theorem deleteBug_then_getBug (s : Controller.Store) (p : Controller.IdParam) :
  NoDup (map Model._id s) ->
  match p with
  | Controller.Malformed =>
      Controller.deleteBug p s = (s, Controller.NextErr)
  | Controller.ObjectId id =>
      match Controller.deleteBug p s with
      | (s', Controller.Deleted) =>
          Controller.getBug p s' = (s', Controller.NotFound)
          /\ (forall id', Controller.findById id' s'
                          = if (id' =? id)%nat then None
                            else Controller.findById id' s)
          /\ List.length s = S (List.length s')
      | (s', Controller.NotFound) =>
          s' = s /\ Controller.findById id s = None
      | _ => False
      end
  end.
Proof.
  intros Hn. destruct p as [id|]; [|reflexivity].
  unfold Controller.deleteBug.
  destruct (Controller.findById id s) as [d|] eqn:E; [|now split].
  assert (Hf : forall id', Controller.findById id' (Controller.remove id s)
                           = if (id' =? id)%nat then None
                             else Controller.findById id' s)
    by (intros id'; now apply findById_remove).
  split; [|split].
  - unfold Controller.getBug. rewrite Hf, Nat.eqb_refl. reflexivity.
  - exact Hf.
  - now apply (remove_length id s d).
Qed.

Lemma deleteBug_then_getBug_witness :
  let f := Model.mkFields (Model.Text (lit "Bug"))
             (Model.Text (lit "Description")) (Model.Text (lit "open")) in
  Controller.getBug (Controller.ObjectId 1) [Model.mkDoc 2 f 30 30]
  = ([Model.mkDoc 2 f 30 30], Controller.NotFound).
Proof.
  cbv zeta.
  refine (proj1 (deleteBug_then_getBug
            [Model.mkDoc 1 (Model.mkFields (Model.Text (lit "Bug"))
                              (Model.Text (lit "Description"))
                              (Model.Text (lit "open")))
               10 10;
             Model.mkDoc 2 (Model.mkFields (Model.Text (lit "Bug"))
                              (Model.Text (lit "Description"))
                              (Model.Text (lit "open")))
               30 30] (Controller.ObjectId 1) _)).
  repeat constructor; simpl; intuition discriminate.
Defined.

(** An update is refused through [next(err)] exactly when the identifier
    is malformed or a field the body carries is not fine (a title or a
    description that is [null], not a string, blank or too long once
    trimmed; a status that is a text outside the enumeration or cannot be
    cast), whether or not the identifier exists; it is answered with
    not-found exactly when the identifier is well formed, the body is fine
    and no record has the identifier; in both cases the collection is left
    as it was. *)
Theorem updateBug_refusals
  (p : Controller.IdParam) (body : Model.Fields) (now : Z)
  (s : Controller.Store) :
  (Controller.updateBug p body now s = (s, Controller.NextErr)
   <-> (p = Controller.Malformed \/ ~ Acceptance.updatable body))
  /\ (Controller.updateBug p body now s = (s, Controller.NotFound)
      <-> (exists id, p = Controller.ObjectId id
                      /\ Acceptance.updatable body
                      /\ Controller.findById id s = None))
  /\ (snd (Controller.updateBug p body now s) = Controller.NextErr
      \/ snd (Controller.updateBug p body now s) = Controller.NotFound ->
      fst (Controller.updateBug p body now s) = s).
Proof.
  pose proof (validate_update_iff body) as Hv. unfold Controller.updateBug.
  destruct p as [id|].
  2:{ split; [|split]; cbn [fst snd]; [split; auto | | reflexivity].
      split; [discriminate | intros [id [H _]]; discriminate]. }
  destruct (Model.validate_update Model.bugSchema
              (Model.cast_update Model.bugSchema body)).
  - assert (Hu : Acceptance.updatable body) by now apply Hv.
    destruct (Controller.findById id s) as [d|] eqn:E; cbn [fst snd].
    + split; [|split].
      * split; [discriminate | intros [H|H]; [discriminate | contradiction]].
      * split; [discriminate|].
        intros [id' [H [_ H']]]. injection H as <-. congruence.
      * intros [H|H]; discriminate.
    + split; [|split].
      * split; [discriminate | intros [H|H]; [discriminate | contradiction]].
      * split; [intros _; exists id; auto | reflexivity].
      * reflexivity.
  - assert (Hu : ~ Acceptance.updatable body).
    { intros H. apply Hv in H. discriminate. }
    split; [|split]; cbn [fst snd]; [split; auto | | reflexivity].
    split; [discriminate | intros [id' [_ [H _]]]; contradiction].
Qed.

Lemma updateBug_refusals_witness :
  let d := Model.mkDoc 1 (Model.mkFields (Model.Text (lit "Test Title"))
                            (Model.Text (lit "Test Description"))
                            (Model.Text (lit "open"))) 10 10 in
  fst (Controller.updateBug Controller.Malformed
         (Model.mkFields Model.Absent Model.Absent
            (Model.Text (lit "resolved"))) 20 [d]) = [d].
Proof.
  cbv zeta.
  apply (proj2 (proj2 (updateBug_refusals Controller.Malformed
           (Model.mkFields Model.Absent Model.Absent
              (Model.Text (lit "resolved"))) 20
           [Model.mkDoc 1 (Model.mkFields (Model.Text (lit "Test Title"))
                             (Model.Text (lit "Test Description"))
                             (Model.Text (lit "open"))) 10 10]))).
  left. reflexivity.
Defined.

(** An accepted update answers with the record found under the
    identifier, changed only in the fields the body carries (title and
    description trimmed) and in [updatedAt]; the identifier and
    [createdAt] stay, the identifiers of the collection stay in place,
    the updated record is what a fetch now returns and every other lookup
    is as before. *)
Theorem updateBug_effect
  (p : Controller.IdParam) (body : Model.Fields) (now : Z)
  (s s' : Controller.Store) (d' : Model.Doc) :
  Controller.updateBug p body now s = (s', Controller.JsonDoc d') ->
  exists id d,
    p = Controller.ObjectId id
    /\ Controller.findById id s = Some d
    /\ Model._id d' = id
    /\ Model.createdAt d' = Model.createdAt d
    /\ Model.updatedAt d' = now
    /\ Model.title (Model.fields d')
       = match Model.title body with
         | Model.Text t => Model.Text (trim t)
         | _ => Model.title (Model.fields d)
         end
    /\ Model.description (Model.fields d')
       = match Model.description body with
         | Model.Text t => Model.Text (trim t)
         | _ => Model.description (Model.fields d)
         end
    /\ Model.status (Model.fields d')
       = match Model.status body with
         | Model.Absent => Model.status (Model.fields d)
         | v => v
         end
    /\ map Model._id s' = map Model._id s
    /\ forall id', Controller.findById id' s'
                   = if (id' =? id)%nat then Some d'
                     else Controller.findById id' s.
Proof.
  unfold Controller.updateBug. destruct p as [id|]; [|discriminate].
  destruct (Model.validate_update Model.bugSchema
              (Model.cast_update Model.bugSchema body)) eqn:Hv; [|discriminate].
  destruct (Controller.findById id s) as [d|] eqn:E; [|discriminate].
  intros H. injection H as Hs Hd. exists id, d.
  pose proof (findById_id id s d E) as [_ Hid].
  apply validate_update_iff in Hv. destruct Hv as [Hvt [Hvd Hvs]].
  split; [reflexivity|]. split; [exact E|]. subst d' s'.
  split; [exact Hid|]. split; [reflexivity|]. split; [reflexivity|].
  split; [destruct body as [[| |t|] de st]; cbn in Hvt |- *;
          try reflexivity; contradiction|].
  split; [destruct body as [t [| |de|] st]; cbn in Hvd |- *;
          try reflexivity; contradiction|].
  split; [destruct body as [t de [| |st|]]; reflexivity|].
  split; [apply replace_ids; reflexivity|].
  intros id'. rewrite findById_replace by reflexivity. now rewrite E.
Qed.

Lemma updateBug_effect_witness :
  let d := Model.mkDoc 1 (Model.mkFields (Model.Text (lit "Test Title"))
                            (Model.Text (lit "Test Description"))
                            (Model.Text (lit "open"))) 10 10 in
  exists d0,
    Controller.findById 1 [d] = Some d0
    /\ Model.createdAt d0 = 10%Z.
Proof.
  cbv zeta.
  destruct (updateBug_effect (Controller.ObjectId 1)
              (Model.mkFields Model.Absent Model.Absent
                 (Model.Text (lit "resolved"))) 20
              [Model.mkDoc 1 (Model.mkFields (Model.Text (lit "Test Title"))
                                (Model.Text (lit "Test Description"))
                                (Model.Text (lit "open"))) 10 10]
              _ _ eq_refl) as [id0 [d0 [H0 [H1 [_ [H3 _]]]]]].
  exists d0. injection H0 as <-. split; [exact H1|].
  rewrite <- H3. reflexivity.
Defined.

(** Only a creation, an update and a deletion that succeed change the
    collection: the two reads and every call answered with not-found or
    through [next(err)] leave it exactly as it was. *)
Theorem handle_changes_only_on_success (c : Controller.Call) (s : Controller.Store) :
  match c, snd (Controller.handle c s) with
  | Controller.POST _ _ _, Controller.Created d =>
      fst (Controller.handle c s) = s ++ [d]
  | Controller.PUT _ _ _, Controller.JsonDoc _ => True
  | Controller.DELETE _, Controller.Deleted => True
  | _, _ => fst (Controller.handle c s) = s
  end.
Proof.
  destruct c as [|[id|]|body oid now|[id|] body now|[id|]]; simpl;
    try reflexivity.
  - now destruct (Controller.findById id s).
  - unfold Controller.createBug.
    destruct (Model.validate Model.bugSchema
                (Model.new_Bug Model.bugSchema body)); [|reflexivity].
    now destruct (Controller.findById oid s).
  - destruct (Model.validate_update Model.bugSchema
                (Model.cast_update Model.bugSchema body)); [|reflexivity].
    now destruct (Controller.findById id s).
  - now destruct (Controller.findById id s).
Qed.

(** ** From the controls to the store *)

(** A status picked in an item's control is always one the schema
    accepts: the update that [handleStatusChange] sends for a record
    whose title and description are as the store keeps them, or for a
    record it did not find, is never refused by the validation. *)
Theorem picked_status_passes_validation
  (b : Bug) (n : nat) (v : jsstring) (id : nat) (now : Z) (s : Controller.Store) :
  Controller.text_ok 100 (Model.Text (title b)) ->
  Controller.text_ok 1000 (Model.Text (description b)) ->
  StatusUpdate.pick (BugItem.status_control (BugItem.BugItem b)) n = Some v ->
  In v Model.statuses
  /\ snd (Controller.updateBug (Controller.ObjectId id)
            (AppView.put_body (Some b) v) now s)
     <> Controller.NextErr
  /\ snd (Controller.updateBug (Controller.ObjectId id)
            (AppView.put_body None v) now s)
     <> Controller.NextErr.
Proof.
  intros [Ht1 [Ht2 [_ Ht3]]] [Hd1 [Hd2 [_ Hd3]]] Hp.
  assert (Hv : In v Model.statuses).
  { unfold StatusUpdate.pick in Hp. cbn in Hp.
    destruct n as [|[|[|n]]]; cbn in Hp;
      try (injection Hp as <-; cbn; tauto).
    destruct n; discriminate. }
  split; [exact Hv|].
  assert (H1 : Acceptance.updatable (AppView.put_body (Some b) v)).
  { unfold Acceptance.updatable, AppView.put_body.
    cbn [Model.title Model.description Model.status].
    rewrite Ht2, Hd2. repeat split; auto. }
  assert (H2 : Acceptance.updatable (AppView.put_body None v)).
  { unfold Acceptance.updatable, AppView.put_body.
    cbn [Model.title Model.description Model.status]. repeat split; auto. }
  apply validate_update_iff in H1. apply validate_update_iff in H2.
  unfold Controller.updateBug. rewrite H1, H2.
  split; destruct (Controller.findById id s); discriminate.
Qed.

Lemma picked_status_passes_validation_witness :
  let b := mkBug (lit "1") (lit "Bug 1") (lit "Description 1") (lit "open") 0 0 in
  snd (Controller.updateBug (Controller.ObjectId 1)
         (AppView.put_body (Some b) (lit "resolved")) 20 [])
  <> Controller.NextErr.
Proof.
  cbv zeta.
  refine (proj1 (proj2 (picked_status_passes_validation
            (mkBug (lit "1") (lit "Bug 1") (lit "Description 1") (lit "open") 0 0)
            2 (lit "resolved") 1 20 [] _ _ eq_refl))).
  - repeat split; try (vm_compute; lia); try discriminate.
    exists 66%N. split; [now left | reflexivity].
  - repeat split; try (vm_compute; lia); try discriminate.
    exists 68%N. split; [now left | reflexivity].
Defined.

(** A draft that [handleSubmit] lets through already meets the store's
    required check: posted as it is, it is stored exactly when its
    trimmed title and description are within 100 and 1000 characters
    and its status is one of the three (the identifier being free). *)
Theorem submitted_draft_meets_required
  (fs : BugForm.FormState) (oid : nat) (now : Z) (s : Controller.Store) :
  BugForm.submissions (snd (BugForm.handleSubmit fs)) <> [] ->
  Controller.findById oid s = None ->
  (exists d,
      Controller.createBug (AppView.post_body (BugForm.form fs)) oid now s
      = (s ++ [d], Controller.Created d))
  <-> ((List.length (trim (BugForm.title (BugForm.form fs))) <= 100)%nat
       /\ (List.length (trim (BugForm.description (BugForm.form fs))) <= 1000)%nat
       /\ In (BugForm.status (BugForm.form fs)) Model.statuses).
Proof.
  intros Hsub Hfree.
  assert (Hne : trim (BugForm.title (BugForm.form fs)) <> []
                /\ trim (BugForm.description (BugForm.form fs)) <> []).
  { unfold BugForm.handleSubmit in Hsub.
    destruct (trim (BugForm.title (BugForm.form fs)));
      destruct (trim (BugForm.description (BugForm.form fs)));
      simpl in Hsub; try congruence. split; discriminate. }
  destruct Hne as [Ht Hd].
  pose proof (validate_new_iff (AppView.post_body (BugForm.form fs))) as Hv.
  unfold Acceptance.acceptable, AppView.post_body in Hv.
  cbn [Model.title Model.description Model.status] in Hv.
  unfold Controller.createBug, AppView.post_body. rewrite Hfree.
  destruct (Model.validate Model.bugSchema _).
  - destruct (proj1 Hv eq_refl) as [[t [Et [_ Lt]]] [[d [Ed [_ Ld]]] Hs]].
    injection Et as <-. injection Ed as <-.
    split; [intros _; repeat split; auto | intros _; eexists; reflexivity].
  - split; [intros [d0 H]; discriminate|].
    intros [Lt [Ld Hs]].
    assert (Hf : false = true).
    { apply Hv. split; [|split]; [eexists; eauto | eexists; eauto | exact Hs]. }
    discriminate.
Qed.

Lemma submitted_draft_meets_required_witness :
  let fs := BugForm.handleChange BugForm.Status (lit "in-progress")
              (BugForm.handleChange BugForm.Description (lit "Test Description")
                 (BugForm.handleChange BugForm.Title (lit "Test Bug")
                    BugForm.useState_initial)) in
  exists d,
    Controller.createBug (AppView.post_body (BugForm.form fs)) 1 10 []
    = ([] ++ [d], Controller.Created d).
Proof.
  cbv zeta.
  apply (proj2 (submitted_draft_meets_required
                  (BugForm.handleChange BugForm.Status (lit "in-progress")
                     (BugForm.handleChange BugForm.Description
                        (lit "Test Description")
                        (BugForm.handleChange BugForm.Title (lit "Test Bug")
                           BugForm.useState_initial)))
                  1 10 [] ltac:(vm_compute; discriminate) eq_refl)).
  split; [vm_compute; lia|]. split; [vm_compute; lia|].
  right; left; reflexivity.
Defined.

(** ** Fetching one record *)

(** [getBug] never changes the collection.  Under a malformed identifier
    it answers through [next(err)]; under a well-formed one it answers
    with a stored record that has this identifier, or with not-found
    exactly when no stored record has it. *)
Theorem getBug_finds_stored_record
  (p : Controller.IdParam) (s : Controller.Store) :
  fst (Controller.getBug p s) = s
  /\ match p with
     | Controller.Malformed =>
         snd (Controller.getBug p s) = Controller.NextErr
     | Controller.ObjectId id =>
         match snd (Controller.getBug p s) with
         | Controller.JsonDoc d => In d s /\ Model._id d = id
         | Controller.NotFound => ~ In id (map Model._id s)
         | _ => False
         end
     end.
Proof.
  unfold Controller.getBug. destruct p as [id|]; [|now split].
  destruct (Controller.findById id s) as [d|] eqn:E.
  - split; [reflexivity|]. now apply findById_id.
  - split; [reflexivity|]. now apply findById_None_iff.
Qed.
